(** * Deployment worker of the contest platform (backend/app/worker.py)

    A shallow embedding of the queue-driven deployment worker: the queue
    message decoder [_parse_queue_item], the deploy target resolver, the
    container launcher, the health gate, the cutover, the status reporter
    and the worker loop.  Effects (container engine, HTTP callbacks,
    health requests, database rows) are modelled by a state and exception
    monad over an explicit world, with the outside services as oracles. *)

From Stdlib Require Import ZArith List String Ascii Bool Lia.
From Stdlib Require Import DecimalString DecimalZ.
From Stdlib Require Import SpecFloat.
Import ListNotations.
Open Scope Z_scope.
Open Scope list_scope.

(** ** Python helpers *)

(** [str(n)] for a Python int, as used by the f-strings of the worker. *)
Definition py_str_int (n : Z) : string :=
  NilEmpty.string_of_int (Z.to_int n).

(** Python text ([str]) as its sequence of code points. *)
Definition text := list Z.

Definition cps (s : string) : text :=
  map (fun a => Z.of_nat (nat_of_ascii a)) (list_ascii_of_string s).

(** [str.isspace] (the whitespace stripped by [str.strip()] and [int()]). *)
Definition py_isspace (c : Z) : bool :=
  ((9 <=? c) && (c <=? 13)) || ((28 <=? c) && (c <=? 32)) ||
  (c =? 133) || (c =? 160) || (c =? 5760) ||
  ((8192 <=? c) && (c <=? 8202)) || (c =? 8232) || (c =? 8233) ||
  (c =? 8239) || (c =? 8287) || (c =? 12288).

Fixpoint lstrip (t : text) : text :=
  match t with
  | c :: r => if py_isspace c then lstrip r else t
  | [] => []
  end.

(** [str.strip()] *)
Definition py_strip (t : text) : text := rev (lstrip (rev (lstrip t))).

Definition is_digit (c : Z) : bool := (48 <=? c) && (c <=? 57).

(** [str.lower()]; ASCII letters are mapped, other code points kept (no
    non-ASCII code point lowers to one of the letters of "deploy" or "stop"). *)
Definition py_lower (t : text) : text :=
  map (fun c => if (65 <=? c) && (c <=? 90) then c + 32 else c) t.

(** Digits with single underscores between them, as [int()] accepts them in
    base 10; [prev] says whether the previous character was a digit. *)
Fixpoint int_digits (acc : Z) (prev : bool) (t : text) : option Z :=
  match t with
  | [] => if prev then Some acc else None
  | c :: r =>
      if is_digit c then int_digits (acc * 10 + (c - 48)) true r
      else if (c =? 95) && prev then int_digits acc false r
      else None
  end.

(** [int(s)] for a [str] argument: [None] stands for [ValueError].  Decimal
    digits outside ASCII, which CPython also accepts, are not modelled. *)
Definition py_int_of_text (t : text) : option Z :=
  match py_strip t with
  | 45 :: r => option_map Z.opp (int_digits 0 false r)
  | 43 :: r => int_digits 0 false r
  | t' => int_digits 0 false t'
  end.

Example py_int_of_text_ex1 : py_int_of_text (cps " 42 ") = Some 42.
Proof. reflexivity. Qed.
Example py_int_of_text_ex2 : py_int_of_text (cps "-1_000") = Some (-1000).
Proof. reflexivity. Qed.
Example py_int_of_text_ex3 : py_int_of_text (cps "1__0") = None.
Proof. reflexivity. Qed.

(** ** Python exceptions raised or caught by the worker *)

Inductive exc : Type :=
| RuntimeError (msg : string)
| NotFound (msg : string)          (* docker.errors.NotFound *)
| DockerError (msg : string)       (* any other docker.errors.DockerException *)
| HTTPError (msg : string)         (* httpx.HTTPError *)
| ValueError (msg : string)
| TypeError (msg : string)
| OverflowError (msg : string)
| JSONDecodeError (msg : string).

(** [str(exc)] *)
Definition exc_str (e : exc) : string :=
  match e with
  | RuntimeError m | NotFound m | DockerError m | HTTPError m
  | ValueError m | TypeError m | OverflowError m | JSONDecodeError m => m
  end.

(** Outcome of a Python call: a value, or an exception propagating. *)
Inductive result (A : Type) : Type :=
| Ok (a : A)
| Raise (e : exc).
Arguments Ok {A} a.
Arguments Raise {A} e.

(** ** The [json.loads] model (strict mode of the C scanner)

    Objects keep their members in source order; [dict.get] reads the last
    binding of a key, as a Python dict built from duplicate keys does. *)

#[local] Set Warnings "-register-all".
Inductive json : Type :=
| JNull
| JBool (b : bool)
| JInt (n : Z)
| JFloat (f : spec_float)
| JStr (s : text)
| JArr (l : list json)
| JObj (kvs : list (text * json)).

(** [float(s)] of a decimal literal [m * 10^e]: IEEE binary64 round to
    nearest even, as CPython's correctly rounded conversion does. *)
Definition float_of_decimal (neg : bool) (m e : Z) : spec_float :=
  if m <=? 0 then S754_zero neg
  else if 0 <=? e then binary_round 53 1024 neg (Z.to_pos (m * 10 ^ e)) 0
  else let '(mz, ez, lz) := SFdiv_core_binary 53 1024 m 0 (10 ^ (- e)) 0 in
       binary_round_aux 53 1024 neg mz ez lz.

Definition is_json_ws (c : Z) : bool := (c =? 32) || (c =? 9) || (c =? 10) || (c =? 13).

Fixpoint skip_ws (t : text) : text :=
  match t with
  | c :: r => if is_json_ws c then skip_ws r else t
  | [] => []
  end.

Definition hex_val (c : Z) : option Z :=
  if is_digit c then Some (c - 48)
  else if (97 <=? c) && (c <=? 102) then Some (c - 87)
  else if (65 <=? c) && (c <=? 70) then Some (c - 55)
  else None.

Definition hex4 (a b c d : Z) : option Z :=
  match hex_val a, hex_val b, hex_val c, hex_val d with
  | Some a, Some b, Some c, Some d => Some (((a * 16 + b) * 16 + c) * 16 + d)
  | _, _, _, _ => None
  end.

Definition simple_escape (c : Z) : option Z :=
  if c =? 34 then Some 34 else if c =? 92 then Some 92
  else if c =? 47 then Some 47 else if c =? 98 then Some 8
  else if c =? 102 then Some 12 else if c =? 110 then Some 10
  else if c =? 114 then Some 13 else if c =? 116 then Some 9
  else None.

Definition cons_fst (c : Z) (p : option (text * text)) : option (text * text) :=
  option_map (fun '(s, rest) => (c :: s, rest)) p.

(** Body of a string literal after the opening quote: its code points and
    the text after the closing quote; [None] is a [JSONDecodeError]. *)
Fixpoint scan_string (t : text) : option (text * text) :=
  match t with
  | [] => None
  | 34 :: r => Some ([], r)
  | 92 :: 117 :: a :: b :: c :: d :: r =>
      match hex4 a b c d with
      | None => None
      | Some u =>
          if (55296 <=? u) && (u <=? 56319) then
            match r with
            | 92 :: 117 :: e :: f :: g :: h :: r' =>
                match hex4 e f g h with
                | Some u2 =>
                    if (56320 <=? u2) && (u2 <=? 57343)
                    then cons_fst (65536 + (u - 55296) * 1024 + (u2 - 56320)) (scan_string r')
                    else cons_fst u (scan_string r)
                | None => None
                end
            | _ => cons_fst u (scan_string r)
            end
          else cons_fst u (scan_string r)
      end
  | 92 :: e :: r =>
      match simple_escape e with
      | Some c => cons_fst c (scan_string r)
      | None => None
      end
  | c :: r => if c <? 32 then None else cons_fst c (scan_string r)
  end.

Fixpoint span_digits (t : text) : text * text :=
  match t with
  | c :: r => if is_digit c then let '(ds, rest) := span_digits r in (c :: ds, rest) else ([], t)
  | [] => ([], [])
  end.

Definition digits_val (ds : text) : Z := fold_left (fun acc c => acc * 10 + (c - 48)) ds 0.

(** The number rule of the scanner: an optional minus, then 0 or a digit
    string not starting with 0, an optional fraction (a dot and at least one
    digit) and an optional exponent (e or E, an optional sign, at least one
    digit); an int when there is neither fraction nor exponent, else a float. *)
Definition scan_number (t : text) : option (json * text) :=
  let '(neg, t1) := match t with 45 :: r => (true, r) | _ => (false, t) end in
  let int_part :=
    match t1 with
    | 48 :: r => Some ([48], r)
    | c :: _ => if is_digit c then Some (span_digits t1) else None
    | [] => None
    end in
  match int_part with
  | None => None
  | Some (ids, r1) =>
      let '(fds, r2) :=
        match r1 with
        | 46 :: d :: r => if is_digit d then span_digits (d :: r) else ([], r1)
        | _ => ([], r1)
        end in
      let '(exp, r3) :=
        match r2 with
        | e :: r =>
            if (e =? 69) || (e =? 101) then
              match r with
              | s :: d :: r' =>
                  if ((s =? 43) || (s =? 45)) && is_digit d then
                    let '(eds, r'') := span_digits (d :: r') in
                    (Some (if s =? 45 then - digits_val eds else digits_val eds), r'')
                  else if is_digit s then
                    let '(eds, r'') := span_digits (s :: d :: r') in (Some (digits_val eds), r'')
                  else (None, r2)
              | [s] => if is_digit s then (Some (digits_val [s]), []) else (None, r2)
              | [] => (None, r2)
              end
            else (None, r2)
        | [] => (None, r2)
        end in
      match fds, exp with
      | [], None =>
          let v := digits_val ids in Some (JInt (if neg then - v else v), r3)
      | _, _ =>
          let e := match exp with Some e => e | None => 0 end in
          Some (JFloat (float_of_decimal neg (digits_val (ids ++ fds)) (e - Z.of_nat (List.length fds))), r3)
      end
  end.

Definition txt_eq (a b : text) : bool := if list_eq_dec Z.eq_dec a b then true else false.

(** The scanner proper.  [fuel] bounds the nesting of calls; every call is
    made after at least one character has been consumed, so the fuel
    [1 + length] given by [json_loads] is never exhausted. *)
Fixpoint scan_value (fuel : nat) (t : text) : option (json * text) :=
  match fuel with
  | O => None
  | S f =>
      match t with
      | 34 :: r => option_map (fun '(s, rest) => (JStr s, rest)) (scan_string r)
      | 123 :: r =>
          match skip_ws r with
          | 125 :: r' => Some (JObj [], r')
          | (34 :: _) as r' => scan_members f r' []
          | _ => None
          end
      | 91 :: r =>
          match skip_ws r with
          | 93 :: r' => Some (JArr [], r')
          | r' => scan_elems f r' []
          end
      | 110 :: 117 :: 108 :: 108 :: r => Some (JNull, r)
      | 116 :: 114 :: 117 :: 101 :: r => Some (JBool true, r)
      | 102 :: 97 :: 108 :: 115 :: 101 :: r => Some (JBool false, r)
      | 78 :: 97 :: 78 :: r => Some (JFloat S754_nan, r)
      | 73 :: 110 :: 102 :: 105 :: 110 :: 105 :: 116 :: 121 :: r =>
          Some (JFloat (S754_infinity false), r)
      | 45 :: 73 :: 110 :: 102 :: 105 :: 110 :: 105 :: 116 :: 121 :: r =>
          Some (JFloat (S754_infinity true), r)
      | _ => scan_number t
      end
  end
(** Members of an object, from a key's opening quote; [acc] reversed. *)
with scan_members (fuel : nat) (t : text) (acc : list (text * json))
  : option (json * text) :=
  match fuel with
  | O => None
  | S f =>
      match t with
      | 34 :: r =>
          match scan_string r with
          | None => None
          | Some (k, r1) =>
              match skip_ws r1 with
              | 58 :: r2 =>
                  match scan_value f (skip_ws r2) with
                  | None => None
                  | Some (v, r3) =>
                      match skip_ws r3 with
                      | 125 :: r4 => Some (JObj (rev ((k, v) :: acc)), r4)
                      | 44 :: r4 =>
                          match skip_ws r4 with
                          | (34 :: _) as r5 => scan_members f r5 ((k, v) :: acc)
                          | _ => None
                          end
                      | _ => None
                      end
                  end
              | _ => None
              end
          end
      | _ => None
      end
  end
(** Elements of a non-empty array; [acc] reversed. *)
with scan_elems (fuel : nat) (t : text) (acc : list json) : option (json * text) :=
  match fuel with
  | O => None
  | S f =>
      match scan_value f t with
      | None => None
      | Some (v, r) =>
          match skip_ws r with
          | 93 :: r' => Some (JArr (rev (v :: acc)), r')
          | 44 :: r' => scan_elems f (skip_ws r') (v :: acc)
          | _ => None
          end
      end
  end.

(** [json.loads(text)]: [None] stands for [json.JSONDecodeError]. *)
Definition json_loads (t : text) : option json :=
  match scan_value (S (List.length t)) (skip_ws t) with
  | Some (v, r) => match skip_ws r with [] => Some v | _ => None end
  | None => None
  end.

(** [dict.get(key)]: the last binding of the key. *)
Fixpoint dict_get (kvs : list (text * json)) (k : text) : option json :=
  match kvs with
  | [] => None
  | (k', v) :: r =>
      match dict_get r k with
      | Some v' => Some v'
      | None => if txt_eq k k' then Some v else None
      end
  end.

(** [int(f)] for a float: truncation; infinities and NaN raise. *)
Definition py_int_of_float (f : spec_float) : result Z :=
  match f with
  | S754_zero _ => Ok 0
  | S754_infinity _ => Raise (OverflowError "cannot convert float infinity to integer")
  | S754_nan => Raise (ValueError "cannot convert float NaN to integer")
  | S754_finite s m e =>
      let v := if 0 <=? e then Z.pos m * 2 ^ e else Z.pos m / 2 ^ (- e) in
      Ok (if s then - v else v)
  end.

(** [int(x)] for a value produced by [json.loads]. *)
Definition py_int_json (v : json) : result Z :=
  match v with
  | JNull => Raise (TypeError "int() argument must be a string, a bytes-like object or a real number, not 'NoneType'")
  | JBool b => Ok (if b then 1 else 0)
  | JInt n => Ok n
  | JFloat f => py_int_of_float f
  | JStr s =>
      match py_int_of_text s with
      | Some n => Ok n
      | None => Raise (ValueError "invalid literal for int() with base 10")
      end
  | JArr _ => Raise (TypeError "int() argument must be a string, a bytes-like object or a real number, not 'list'")
  | JObj _ => Raise (TypeError "int() argument must be a string, a bytes-like object or a real number, not 'dict'")
  end.

(** [str(x)] for a value produced by [json.loads].  The repr of a finite
    float, a list or a dict is given by its first character only (a digit or
    a minus sign, an opening bracket, an opening brace): enough to know it is
    never "deploy" or "stop" once lowered. *)
Definition py_str_json (v : json) : text :=
  match v with
  | JNull => cps "None"
  | JBool true => cps "True"
  | JBool false => cps "False"
  | JInt n => cps (py_str_int n)
  | JFloat (S754_infinity false) => cps "inf"
  | JFloat (S754_infinity true) => cps "-inf"
  | JFloat S754_nan => cps "nan"
  | JFloat (S754_zero true) | JFloat (S754_finite true _ _) => cps "-"
  | JFloat _ => cps "0"
  | JStr s => s
  | JArr _ => cps "["
  | JObj _ => cps "{"
  end.

(** [QueueJob] *)
Record QueueJob := mkQueueJob { action : text; submission_id : Z }.

Definition is_TypeError_or_ValueError (e : exc) : bool :=
  match e with TypeError _ | ValueError _ | JSONDecodeError _ => true | _ => false end.

(** [_parse_queue_item]; the payload is the text after
    [raw_value.decode(errors="ignore")], [None] when the value is [None]. *)
Definition _parse_queue_item (raw_value : option text) : result (option QueueJob) :=
  match raw_value with
  | None => Ok None
  | Some raw =>
      let t := py_strip raw in
      match t with
      | [] => Ok None
      | _ =>
          match py_int_of_text t with
          | Some n => Ok (Some (mkQueueJob (cps "deploy") n))
          | None =>
              match json_loads t with
              | None => Ok None
              | Some (JObj kvs) =>
                  let act := py_lower (py_str_json (match dict_get kvs (cps "action") with
                                                    | Some v => v | None => JStr [] end)) in
                  let sid := match dict_get kvs (cps "submission_id") with
                             | Some v => v | None => JNull end in
                  match py_int_json sid with
                  | Raise e => if is_TypeError_or_ValueError e then Ok None else Raise e
                  | Ok n =>
                      if txt_eq act (cps "deploy") || txt_eq act (cps "stop")
                      then Ok (Some (mkQueueJob act n))
                      else Ok None
                  end
              | Some _ => Ok None
              end
          end
      end
  end.

(** Test payloads are written with single quotes standing for JSON's
    double quotes. *)
Definition cpsq (s : string) : text := map (fun c => if c =? 39 then 34 else c) (cps s).

Definition decode (s : string) : result (option QueueJob) := _parse_queue_item (Some (cpsq s)).

Example decode_ex_42 : decode "42" = Ok (Some (mkQueueJob (cps "deploy") 42)).
Proof. reflexivity. Qed.
Example decode_ex_abc : decode "abc" = Ok None.
Proof. reflexivity. Qed.
Example decode_ex_empty_obj : decode "{}" = Ok None.
Proof. reflexivity. Qed.
Example decode_ex_stop : decode " {'action': 'STOP', 'submission_id': '7'} " =
  Ok (Some (mkQueueJob (cps "stop") 7)).
Proof. reflexivity. Qed.
Example decode_ex_float : decode "{'action':'deploy','submission_id':2.5e1}" =
  Ok (Some (mkQueueJob (cps "deploy") 25)).
Proof. vm_compute. reflexivity. Qed.

(** ** Data model of the worker *)

Inductive ProjectSubmissionStatus := PULLING | DEPLOYING | HEALTHCHECKING | ONLINE | FAILED.

(** Body of a status callback ([_build_status_payload]). *)
Record Payload := mkPayload {
  p_status : ProjectSubmissionStatus;
  p_status_message : option string;
  p_error_code : option string;
  p_log_append : option string;
  p_domain : option string }.

(** A Python [Optional[str]] argument kept only when truthy. *)
Definition truthy (s : option string) : option string :=
  match s with Some v => if String.eqb v "" then None else Some v | None => None end.

Definition _build_status_payload (status : ProjectSubmissionStatus)
  (message error_code log_append domain : option string) : Payload :=
  mkPayload status (truthy message) (truthy error_code) (truthy log_append) (truthy domain).

(** [str.rstrip("/")]: every trailing slash removed. *)
Fixpoint rstrip_slash (s : string) : string :=
  match s with
  | EmptyString => EmptyString
  | String c r =>
      let r' := rstrip_slash r in
      if String.eqb r' EmptyString && Ascii.eqb c "/"%char then EmptyString else String c r'
  end.

(** [_build_status_url], with the settings [WORKER_API_BASE_URL] and
    [API_V1_PREFIX] it reads. *)
Definition _build_status_url (WORKER_API_BASE_URL API_V1_PREFIX : string) (submission_id : Z)
  : string :=
  let base := rstrip_slash WORKER_API_BASE_URL in
  (base ++ API_V1_PREFIX ++ "/project-submissions/" ++ py_str_int submission_id ++ "/status")%string.

(** The row returned by the join of [ProjectSubmission] and
    [Project.current_submission_id]. *)
Record SubmissionRow := mkRow {
  row_id : Z;
  row_project_id : Z;
  row_image_ref : option string;
  row_domain : option string;      (* domain persisted on the submission *)
  row_current_submission_id : option Z }.

Record DeployTarget := mkTarget {
  t_submission_id : Z;
  t_project_id : Z;
  t_image_ref : string;
  t_domain : string;
  t_current_submission_id : option Z }.

(** A container of the engine, with what [containers.run] gave it. *)
Record Container := mkContainer {
  c_name : string;
  c_image : string;
  c_network : string;
  c_labels : list (string * string);
  c_env_port : string }.

(** The settings read by the worker. *)
Record Settings := mkSettings {
  WORKER_API_TOKEN : string;
  WORKER_DEPLOY_NETWORK : string;
  WORKER_PROJECT_PORT : Z;
  WORKER_HEALTHCHECK_ENABLED : bool;
  WORKER_HEALTHCHECK_RETRY : Z;
  WORKER_HEALTHCHECK_PATH : string }.

(** What [containers.run] does with an image: create and start it, fail
    to create it, or create it and fail to start it (docker-py's [run] is
    create then start, so the created container stays). *)
Inductive RunOutcome := RunStarts | CreateFails | StartFails.

(** The outside world, as oracles: database rows, the engine's reachability,
    networks and per-image behaviour, and the HTTP responses.  [cb_resp n]
    and [health_resp n] answer the [n]-th status PATCH and the [n]-th health
    GET of the run: [Some code], or [None] for an [httpx.HTTPError]. *)
Record Env := mkEnv {
  db : Z -> option SubmissionRow;
  engine_up : bool;
  engine_networks : list string;
  hostname : option string;
  self_networks : string -> option (list string);
  pull_ok : string -> bool;
  run_outcome : string -> RunOutcome;
  remove_ok : string -> bool;
  cb_resp : nat -> option Z;
  health_resp : nat -> option Z }.

(** The mutable world: the engine's containers, and the traces of the
    calls the worker issued. *)
Record World := mkWorld {
  containers : list Container;
  callbacks : list (Z * Payload);   (* status PATCHes issued, in order *)
  removals : list string;           (* [_remove_container] calls, in order *)
  runs : list string;               (* [containers.run] calls, in order *)
  gets : list string;               (* health GETs issued, in order *)
  logs : list string }.

(** ** The state and exception monad *)

Definition M (A : Type) : Type := World -> result A * World.

Definition ret {A} (a : A) : M A := fun w => (Ok a, w).
Definition raise {A} (e : exc) : M A := fun w => (Raise e, w).
Definition bind {A B} (m : M A) (k : A -> M B) : M B :=
  fun w => match m w with
           | (Ok a, w') => k a w'
           | (Raise e, w') => (Raise e, w')
           end.
(** [try: m except <catches>: handler] *)
Definition try_except {A} (m : M A) (catches : exc -> bool) (handler : exc -> M A) : M A :=
  fun w => match m w with
           | (Raise e, w') => if catches e then handler e w' else (Raise e, w')
           | r => r
           end.
Definition modify (f : World -> World) : M unit := fun w => (Ok tt, f w).
Definition lift {A} (r : result A) : M A := fun w => (r, w).

Notation "x <- c1 ;; c2" := (bind c1 (fun x => c2))
  (at level 61, c1 at next level, right associativity).
Notation "e1 ;; e2" := (bind e1 (fun _ => e2)) (at level 61, right associativity).

Definition any_exception (e : exc) : bool := true.
Definition is_NotFound (e : exc) : bool := match e with NotFound _ => true | _ => false end.
Definition is_HTTPError (e : exc) : bool := match e with HTTPError _ => true | _ => false end.

Definition set_containers (cs : list Container) (w : World) : World :=
  mkWorld cs (callbacks w) (removals w) (runs w) (gets w) (logs w).
Definition add_callback (c : Z * Payload) (w : World) : World :=
  mkWorld (containers w) (callbacks w ++ [c]) (removals w) (runs w) (gets w) (logs w).
Definition add_removal (n : string) (w : World) : World :=
  mkWorld (containers w) (callbacks w) (removals w ++ [n]) (runs w) (gets w) (logs w).
Definition add_run (n : string) (w : World) : World :=
  mkWorld (containers w) (callbacks w) (removals w) (runs w ++ [n]) (gets w) (logs w).
Definition add_get (u : string) (w : World) : World :=
  mkWorld (containers w) (callbacks w) (removals w) (runs w) (gets w ++ [u]) (logs w).
Definition add_log (m : string) (w : World) : World :=
  mkWorld (containers w) (callbacks w) (removals w) (runs w) (gets w) (logs w ++ [m]).

Definition nl : string := String (ascii_of_nat 10) EmptyString.

(** ** The worker *)

Section Worker.

Variable settings : Settings.
Variable env : Env.
(** [app.services.project_domain.build_project_domain]: the shared
    deterministic naming function, left abstract. *)
Variable build_project_domain : Z -> string.

Local Open Scope string_scope.

(** *** Status reporter *)

Definition _update_status (submission_id : Z) (payload : Payload) : M unit :=
  if String.eqb (WORKER_API_TOKEN settings) "" then
    raise (RuntimeError "WORKER_API_TOKEN 未配置，无法回写状态")
  else
    fun w =>
      let n := List.length (callbacks w) in
      let w' := add_callback (submission_id, payload) w in
      match cb_resp env n with
      | None => (Raise (HTTPError "status callback transport error"), w')
      | Some code =>
          if (400 <=? code)%Z then (Raise (RuntimeError ("状态回写失败: " ++ py_str_int code)), w')
          else (Ok tt, w')
      end.

Definition _safe_update_status (submission_id : Z) (payload : Payload) : M unit :=
  try_except (_update_status submission_id payload) any_exception
    (fun e => modify (add_log ("状态回写失败: submission_id=" ++ py_str_int submission_id
                               ++ ", error=" ++ exc_str e))).

(** *** Deploy target resolver *)

Definition _load_deploy_target (submission_id : Z) : M DeployTarget :=
  match db env submission_id with
  | None => raise (RuntimeError "提交记录不存在")
  | Some row =>
      match truthy (row_image_ref row) with
      | None => raise (RuntimeError "提交缺少镜像引用")
      | Some image_ref =>
          ret (mkTarget (row_id row) (row_project_id row) image_ref
                 (build_project_domain submission_id) (row_current_submission_id row))
      end
  end.

(** *** Container engine *)

Definition _docker_client : M unit :=
  if engine_up env then ret tt
  else raise (DockerError "Error while fetching server API version").

Definition containers_get (name : string) : M Container :=
  fun w =>
    match find (fun c => String.eqb (c_name c) name) (containers w) with
    | Some c => (Ok c, w)
    | None => (Raise (NotFound ("No such container: " ++ name)), w)
    end.

Fixpoint remove_first (name : string) (cs : list Container) : list Container :=
  match cs with
  | [] => []
  | c :: r => if String.eqb (c_name c) name then r else c :: remove_first name r
  end.

(** [container.remove(force=True)] *)
Definition container_remove_force (c : Container) : M unit :=
  if remove_ok env (c_name c) then
    modify (fun w => set_containers (remove_first (c_name c) (containers w)) w)
  else raise (DockerError ("removal of container " ++ c_name c ++ " failed")).

(** [client.containers.run(image, name=..., ...)]: the engine refuses a
    name in use (409 Conflict). *)
Definition containers_run (image name network : string)
  (labels : list (string * string)) (port : string) : M unit :=
  fun w =>
    let w1 := add_run name w in
    let c := mkContainer name image network labels port in
    if existsb (fun c' => String.eqb (c_name c') name) (containers w) then
      (Raise (DockerError ("Conflict. The container name " ++ name ++ " is already in use")), w1)
    else
      match run_outcome env image with
      | RunStarts => (Ok tt, set_containers (containers w1 ++ [c]) w1)
      | CreateFails => (Raise (DockerError "container creation failed"), w1)
      | StartFails =>
          (Raise (DockerError "container start failed"), set_containers (containers w1 ++ [c]) w1)
      end.

Definition _resolve_deploy_network : M (option string) :=
  let net := WORKER_DEPLOY_NETWORK settings in
  if negb (String.eqb net "") then
    if existsb (String.eqb net) (engine_networks env) then ret (Some net)
    else modify (add_log ("部署网络不存在: " ++ net));; ret None
  else
    match hostname env with
    | None => ret None
    | Some container_id =>
        if String.eqb container_id "" then ret None
        else match self_networks env container_id with
             | None => ret None
             | Some [] => ret None
             | Some (n :: _) => ret (Some n)
             end
    end.

Definition _build_container_name (submission_id : Z) : string :=
  "project-" ++ py_str_int submission_id.

Definition _build_container_labels (target : DeployTarget) (network_name : option string)
  : list (string * string) :=
  let router_name := "project-" ++ py_str_int (t_submission_id target) in
  [("traefik.enable", "true");
   ("traefik.http.routers." ++ router_name ++ ".rule", "Host(`" ++ t_domain target ++ "`)");
   ("traefik.http.routers." ++ router_name ++ ".entrypoints", "web");
   ("traefik.http.services." ++ router_name ++ ".loadbalancer.server.port",
      py_str_int (WORKER_PROJECT_PORT settings));
   ("com.ikuncode.project_submission_id", py_str_int (t_submission_id target));
   ("com.ikuncode.project_id", py_str_int (t_project_id target))]
  ++ match truthy network_name with
     | Some n => [("traefik.docker.network", n)]
     | None => []
     end.

Definition _remove_container_if_exists (container_name : string) : M unit :=
  co <- try_except (c <- containers_get container_name;; ret (Some c)) is_NotFound
          (fun _ => ret None);;
  match co with
  | None => ret tt
  | Some c => container_remove_force c
  end.

Definition _docker_pull (image_ref : string) : M unit :=
  _docker_client;;
  if pull_ok env image_ref then ret tt
  else raise (DockerError ("pull of " ++ image_ref ++ " failed")).

(** [_start_container] (the hardening options, log rotation and limits are
    passed to the engine unchanged and are not represented). *)
Definition _start_container (target : DeployTarget) : M string :=
  _docker_client;;
  network_name <- _resolve_deploy_network;;
  match truthy network_name with
  | None => raise (RuntimeError "未检测到部署网络，请配置 WORKER_DEPLOY_NETWORK")
  | Some n =>
      let container_name := _build_container_name (t_submission_id target) in
      _remove_container_if_exists container_name;;
      containers_run (t_image_ref target) container_name n
        (_build_container_labels target (Some n)) (py_str_int (WORKER_PROJECT_PORT settings));;
      ret container_name
  end.

(** [_remove_container]: the call is recorded, then [_remove_container_sync]. *)
Definition _remove_container (container_name : string) : M unit :=
  modify (add_removal container_name);;
  _docker_client;;
  _remove_container_if_exists container_name.

(** *** Health gate *)

(** [client.get(url, timeout=...)]: the status code, or [httpx.HTTPError]. *)
Definition http_get (url : string) : M Z :=
  fun w =>
    let n := List.length (gets w) in
    let w' := add_get url w in
    match health_resp env n with
    | Some code => (Ok code, w')
    | None => (Raise (HTTPError ("request to " ++ url ++ " failed")), w')
    end.

(** The [for _ in range(...)] loop with [n] iterations left (the
    [asyncio.sleep] between attempts has no effect on the world). *)
Fixpoint health_attempts (url : string) (n : nat) : M bool :=
  match n with
  | O => ret false
  | S k =>
      ok <- try_except (status_code <- http_get url;; ret (Z.eqb status_code 200))
              is_HTTPError (fun _ => ret false);;
      if ok then ret true else health_attempts url k
  end.

Definition health_url (container_name : string) : string :=
  "http://" ++ container_name ++ ":" ++ py_str_int (WORKER_PROJECT_PORT settings)
  ++ WORKER_HEALTHCHECK_PATH settings.

Definition _health_check (container_name : string) : M bool :=
  if negb (WORKER_HEALTHCHECK_ENABLED settings) then ret true
  else health_attempts (health_url container_name) (Z.to_nat (WORKER_HEALTHCHECK_RETRY settings)).

(** *** Cutover, stop *)

Definition _cleanup_old_container (current_id : option Z) (new_id : Z) : M unit :=
  match current_id with
  | None => ret tt
  | Some cur =>
      if (cur =? 0)%Z || (cur =? new_id)%Z then ret tt
      else
        let container_name := _build_container_name cur in
        try_except (_remove_container container_name) any_exception
          (fun e => modify (add_log ("清理旧容器失败: container=" ++ container_name
                                     ++ ", error=" ++ exc_str e)))
  end.

Definition _stop_submission (submission_id : Z) : M unit :=
  let container_name := _build_container_name submission_id in
  try_except
    (_remove_container container_name;;
     modify (add_log ("已停止容器: submission_id=" ++ py_str_int submission_id)))
    any_exception
    (fun e => modify (add_log ("停止容器失败: submission_id=" ++ py_str_int submission_id
                               ++ ", error=" ++ exc_str e))).

(** *** Deploy pipeline *)

(** The body of the [try] block of [_process_submission], up to and
    including the ONLINE report. *)
Definition deploy_until_online (submission_id : Z) (container_name : string)
  (target : DeployTarget) : M unit :=
  _update_status submission_id
    (_build_status_payload PULLING (Some "拉取镜像中") None
       (Some ("开始拉取镜像: " ++ t_image_ref target)) None);;
  _docker_pull (t_image_ref target);;
  _update_status submission_id
    (_build_status_payload DEPLOYING (Some "部署中") None (Some "创建容器并接入网关") None);;
  _start_container target;;
  _update_status submission_id
    (_build_status_payload HEALTHCHECKING (Some "健康检查中") None (Some "开始健康检查") None);;
  ok <- _health_check container_name;;
  (if ok then ret tt else raise (RuntimeError "健康检查失败"));;
  _update_status submission_id
    (_build_status_payload ONLINE (Some "上线成功") None (Some "健康检查通过，已上线")
       (Some (t_domain target))).

(** The whole [try] block: the steps above, then the cutover. *)
Definition deploy_steps (submission_id : Z) (container_name : string) (target : DeployTarget)
  : M unit :=
  deploy_until_online submission_id container_name target;;
  _cleanup_old_container (t_current_submission_id target) submission_id.

(** The [except Exception as exc] handler of [_process_submission]. *)
Definition deploy_failed (submission_id : Z) (container_name : string) (e : exc) : M unit :=
  modify (add_log ("提交处理失败: submission_id=" ++ py_str_int submission_id
                   ++ ", error=" ++ exc_str e));;
  try_except (_remove_container container_name) any_exception
    (fun ce => modify (add_log ("容器清理失败: container=" ++ container_name
                                ++ ", error=" ++ exc_str ce)));;
  _safe_update_status submission_id
    (_build_status_payload FAILED (Some "部署失败") (Some "worker_failed")
       (Some ("部署失败: " ++ exc_str e ++ nl ++ "已执行清理")) None).

Definition _process_submission (submission_id : Z) : M unit :=
  let container_name := _build_container_name submission_id in
  target <- _load_deploy_target submission_id;;
  try_except (deploy_steps submission_id container_name target) any_exception
    (deploy_failed submission_id container_name).

(** *** Worker loop

    The queue as seen by the [while True] loop: each [blpop] gives [None]
    (timed out) or a payload.  [Ok tt] after the list means the worker is
    still running, blocked on the next [blpop]; [Raise e] means [e] escaped
    the loop and the worker terminated. *)
Definition dispatch (job : QueueJob) : M unit :=
  if txt_eq (action job) (cps "deploy") then _process_submission (submission_id job)
  else if txt_eq (action job) (cps "stop") then _stop_submission (submission_id job)
  else ret tt.

Fixpoint worker_jobs (items : list (option text)) : M unit :=
  match items with
  | [] => ret tt
  | None :: rest => worker_jobs rest
  | Some raw_value :: rest =>
      job <- lift (_parse_queue_item (Some raw_value));;
      match job with
      | None => worker_jobs rest
      | Some j => dispatch j;; worker_jobs rest
      end
  end.

Definition _worker_loop (items : list (option text)) : M unit :=
  if String.eqb (WORKER_API_TOKEN settings) "" then
    modify (add_log "WORKER_API_TOKEN 未配置，Worker 无法回写状态")
  else worker_jobs items.

End Worker.

(** ** Sample configuration for the examples *)

Section Samples.
Local Open Scope string_scope.

Definition sample_settings : Settings :=
  mkSettings "worker-token" "ikun-net" 8080 true 3 "/health".

Definition sample_domain (submission_id : Z) : string :=
  ("s" ++ py_str_int submission_id ++ ".example.test")%string.

Definition sample_row (sid : Z) (cur : option Z) : SubmissionRow :=
  mkRow sid 1 (Some "registry.test/app:1") None cur.

(** Submission 5 of project 1 is in the database, 4 is live; every request
    is answered 200 and the engine is healthy. *)
Definition sample_env : Env :=
  mkEnv (fun sid => if (sid =? 5)%Z then Some (sample_row 5 (Some 4)) else None)
    true ["ikun-net"] None (fun _ => None) (fun _ => true) (fun _ => RunStarts)
    (fun _ => true) (fun _ => Some 200) (fun _ => Some 200).

Definition live4 : Container :=
  mkContainer "project-4" "registry.test/app:0" "ikun-net" [] "8080".

Definition sample_world : World := mkWorld [live4] [] [] [] [] [].

(** The target of submission 5, and the world after its steps up to ONLINE. *)
Definition sample_target : DeployTarget :=
  mkTarget 5 1 "registry.test/app:1" (sample_domain 5) (Some 4).

Definition sample_online_world : World :=
  snd (deploy_until_online sample_settings sample_env 5 "project-5"
         sample_target sample_world).

Definition sample_deployed_world : World :=
  snd (deploy_steps sample_settings sample_env 5 "project-5" sample_target sample_world).

(** Submission 5 is itself the live one (a redeploy), and its image can no
    longer be pulled. *)
Definition redeploy_env : Env :=
  mkEnv (fun sid => if (sid =? 5)%Z then Some (sample_row 5 (Some 5)) else None)
    true ["ikun-net"] None (fun _ => None) (fun _ => false) (fun _ => RunStarts)
    (fun _ => true) (fun _ => Some 200) (fun _ => Some 200).

Definition live5 : Container :=
  mkContainer "project-5" "registry.test/app:1" "ikun-net" [] "8080".

Definition redeploy_world : World := mkWorld [live5] [] [] [] [] [].

(** The health endpoint answers 500, 500, then 200. *)
Definition health_example_env : Env :=
  mkEnv (db sample_env) true ["ikun-net"] None (fun _ => None) (fun _ => true)
    (fun _ => RunStarts) (fun _ => true) (fun _ => Some 200)
    (fun n => match n with 0%nat | 1%nat => Some 500 | _ => Some 200 end).

(** Submission 5 carries a domain persisted on it. *)
Definition pinned_env : Env :=
  mkEnv (fun sid => if (sid =? 5)%Z
                    then Some (mkRow 5 1 (Some "registry.test/app:1") (Some "pinned.example.test") (Some 4))
                    else None)
    true ["ikun-net"] None (fun _ => None) (fun _ => true) (fun _ => RunStarts)
    (fun _ => true) (fun _ => Some 200) (fun _ => Some 200).

End Samples.

Definition statuses (w : World) : list ProjectSubmissionStatus :=
  map (fun cb => p_status (snd cb)) (callbacks w).

Example sample_deploy :
  let w := snd (_worker_loop sample_settings sample_env sample_domain [Some (cps "5")] sample_world) in
  statuses w = [PULLING; DEPLOYING; HEALTHCHECKING; ONLINE] /\
  map c_name (containers w) = ["project-5"]%string /\ removals w = ["project-4"]%string.
Proof. vm_compute. repeat split; reflexivity. Qed.

(** ** Frame reasoning

    [frame R m]: every run of [m] relates its initial and final worlds by
    [R].  For a reflexive and transitive [R] the property is closed under
    the monad's combinators, so it is proved of a composite step from its
    primitive steps. *)

Definition frame {A} (R : World -> World -> Prop) (m : M A) : Prop :=
  forall w r w', m w = (r, w') -> R w w'.

Section FrameRules.
Variable R : World -> World -> Prop.
Hypothesis R_refl : forall w, R w w.
Hypothesis R_trans : forall w1 w2 w3, R w1 w2 -> R w2 w3 -> R w1 w3.

Lemma frame_ret {A} (a : A) : frame R (ret a).
Proof. intros w r w' H; injection H as _ <-; apply R_refl. Qed.

Lemma frame_raise {A} (e : exc) : frame R (@raise A e).
Proof. intros w r w' H; injection H as _ <-; apply R_refl. Qed.

Lemma frame_lift {A} (x : result A) : frame R (lift x).
Proof. intros w r w' H; injection H as _ <-; apply R_refl. Qed.

Lemma frame_bind {A B} (m : M A) (k : A -> M B) :
  frame R m -> (forall a, frame R (k a)) -> frame R (bind m k).
Proof.
  intros Hm Hk w r w'; unfold bind.
  destruct (m w) as [[a|e] w1] eqn:E; intros H.
  - apply R_trans with w1; [exact (Hm _ _ _ E) | exact (Hk a _ _ _ H)].
  - injection H as _ <-; exact (Hm _ _ _ E).
Qed.

Lemma frame_try {A} (m : M A) (c : exc -> bool) (h : exc -> M A) :
  frame R m -> (forall e, frame R (h e)) -> frame R (try_except m c h).
Proof.
  intros Hm Hh w r w'; unfold try_except.
  destruct (m w) as [[a|e] w1] eqn:E; intros H.
  - injection H as _ <-; exact (Hm _ _ _ E).
  - destruct (c e).
    + apply R_trans with w1; [exact (Hm _ _ _ E) | exact (Hh e _ _ _ H)].
    + injection H as _ <-; exact (Hm _ _ _ E).
Qed.

Lemma frame_modify (f : World -> World) : (forall w, R w (f w)) -> frame R (modify f).
Proof. intros Hf w r w' H; injection H as _ <-; apply Hf. Qed.

End FrameRules.

Create HintDb frame_db.

(** Decompose a composite step into primitive ones; the primitive steps and
    the reflexivity and transitivity of the relation come from [frame_db]. *)
Ltac frame_auto :=
  repeat first
    [ solve [eauto with frame_db]
    | progress intros
    | apply frame_bind; [now eauto with frame_db | | ]
    | apply frame_try; [now eauto with frame_db | | ]
    | apply frame_ret; now eauto with frame_db
    | apply frame_raise; now eauto with frame_db
    | apply frame_lift; now eauto with frame_db
    | match goal with
      | |- frame _ (if ?b then _ else _) => destruct b
      | |- frame _ (match ?x with _ => _ end) => destruct x
      end ].

Definition names (w : World) : list string := map c_name (containers w).

(** Relations between the world before and after a step. *)
Definition same_callbacks (w w' : World) : Prop := callbacks w' = callbacks w.
Definition same_removals (w w' : World) : Prop := removals w' = removals w.
Definition keeps_nodup (w w' : World) : Prop := NoDup (names w) -> NoDup (names w').
(** Containers with another name than [n] are all still there. *)
Definition keeps_other (n : string) (w w' : World) : Prop :=
  forall c, c_name c <> n -> In c (containers w) -> In c (containers w').

Lemma same_callbacks_refl w : same_callbacks w w.
Proof. reflexivity. Qed.
Lemma same_callbacks_trans w1 w2 w3 :
  same_callbacks w1 w2 -> same_callbacks w2 w3 -> same_callbacks w1 w3.
Proof. unfold same_callbacks; congruence. Qed.
Lemma same_removals_refl w : same_removals w w.
Proof. reflexivity. Qed.
Lemma same_removals_trans w1 w2 w3 :
  same_removals w1 w2 -> same_removals w2 w3 -> same_removals w1 w3.
Proof. unfold same_removals; congruence. Qed.
Lemma keeps_nodup_refl w : keeps_nodup w w.
Proof. unfold keeps_nodup; auto. Qed.
Lemma keeps_nodup_trans w1 w2 w3 :
  keeps_nodup w1 w2 -> keeps_nodup w2 w3 -> keeps_nodup w1 w3.
Proof. unfold keeps_nodup; auto. Qed.
Lemma keeps_other_refl n w : keeps_other n w w.
Proof. unfold keeps_other; auto. Qed.
Lemma keeps_other_trans n w1 w2 w3 :
  keeps_other n w1 w2 -> keeps_other n w2 w3 -> keeps_other n w1 w3.
Proof. unfold keeps_other; auto. Qed.

#[export] Hint Resolve same_callbacks_refl same_callbacks_trans same_removals_refl
  same_removals_trans keeps_nodup_refl keeps_nodup_trans keeps_other_refl
  keeps_other_trans : frame_db.

(** *** Primitive steps *)

Ltac run_inv H :=
  repeat match type of H with
  | context [match ?x with _ => _ end] => let E := fresh "E" in destruct x eqn:E
  end;
  injection H as _ <-.

Lemma remove_first_in n c cs : In c (remove_first n cs) -> In c cs.
Proof.
  induction cs as [|c' cs IH]; simpl; [tauto|].
  destruct (String.eqb (c_name c') n); simpl; intuition.
Qed.

Lemma remove_first_keeps n c cs : c_name c <> n -> In c cs -> In c (remove_first n cs).
Proof.
  intros Hn; induction cs as [|c' cs IH]; simpl; [tauto|].
  destruct (String.eqb (c_name c') n) eqn:E; simpl.
  - apply String.eqb_eq in E. intros [<-|H]; [contradiction|exact H].
  - intros [<-|H]; [left; reflexivity|right; auto].
Qed.

Lemma remove_first_nodup n cs :
  NoDup (map c_name cs) -> NoDup (map c_name (remove_first n cs)).
Proof.
  induction cs as [|c cs IH]; simpl; [auto|].
  intros H; inversion H as [|x l Hnin Hnd]; subst.
  destruct (String.eqb (c_name c) n); simpl; [exact Hnd|].
  constructor; [|auto].
  intros Hin; apply Hnin. apply in_map_iff in Hin as (c' & Hc' & Hin).
  rewrite <- Hc'. apply in_map, (remove_first_in n), Hin.
Qed.

Lemma remove_first_gone n cs :
  NoDup (map c_name cs) -> ~ In n (map c_name (remove_first n cs)).
Proof.
  induction cs as [|c cs IH]; simpl; [auto|].
  intros H; inversion H as [|x l Hnin Hnd]; subst.
  destruct (String.eqb (c_name c) n) eqn:E; simpl.
  - apply String.eqb_eq in E; subst n. exact Hnin.
  - apply String.eqb_neq in E. intros [Hc|Hin]; [contradiction|exact (IH Hnd Hin)].
Qed.

Lemma nodup_snoc (l : list string) x : NoDup l -> ~ In x l -> NoDup (l ++ [x]).
Proof.
  intros Hl Hx. apply NoDup_app; auto using NoDup_cons, NoDup_nil.
  intros y Hy [<-|[]]. contradiction.
Qed.

Section Primitives.
Variable settings : Settings.
Variable env : Env.

Lemma containers_get_id n : forall w r w', containers_get n w = (r, w') -> w' = w.
Proof. intros w r w' H; unfold containers_get in H; run_inv H; reflexivity. Qed.

Lemma containers_get_name n : forall w c w', containers_get n w = (Ok c, w') -> c_name c = n.
Proof.
  intros w c w' H; unfold containers_get in H.
  destruct (find _ _) as [c'|] eqn:E; [|discriminate].
  injection H as -> _. apply find_some in E as [_ E]. now apply String.eqb_eq.
Qed.

Lemma frame_get R n : (forall w, R w w) -> frame R (containers_get n).
Proof. intros Hr w r w' H; apply containers_get_id in H; subst; apply Hr. Qed.

Lemma http_get_world url : forall w r w', http_get env url w = (r, w') -> w' = add_get url w.
Proof. intros w r w' H; unfold http_get in H; run_inv H; reflexivity. Qed.

Lemma frame_remove_force_cb c : frame same_callbacks (container_remove_force env c).
Proof. intros w r w' H; unfold container_remove_force, modify, raise in H; run_inv H; reflexivity. Qed.
Lemma frame_remove_force_rm c : frame same_removals (container_remove_force env c).
Proof. intros w r w' H; unfold container_remove_force, modify, raise in H; run_inv H; reflexivity. Qed.
Lemma frame_remove_force_nd c : frame keeps_nodup (container_remove_force env c).
Proof.
  intros w r w' H; unfold container_remove_force, modify, raise in H; run_inv H;
  unfold keeps_nodup, names; simpl; auto using remove_first_nodup.
Qed.
Lemma frame_remove_force_other c : frame (keeps_other (c_name c)) (container_remove_force env c).
Proof.
  intros w r w' H; unfold container_remove_force, modify, raise in H; run_inv H;
  unfold keeps_other; simpl; auto using remove_first_keeps.
Qed.

Lemma frame_run_cb i n net l p : frame same_callbacks (containers_run env i n net l p).
Proof. intros w r w' H; unfold containers_run in H; run_inv H; reflexivity. Qed.
Lemma frame_run_rm i n net l p : frame same_removals (containers_run env i n net l p).
Proof. intros w r w' H; unfold containers_run in H; run_inv H; reflexivity. Qed.
Lemma frame_run_nd i n net l p : frame keeps_nodup (containers_run env i n net l p).
Proof.
  intros w r w' H; unfold containers_run in H; run_inv H;
    unfold keeps_nodup, names; simpl; rewrite ?map_app; simpl; auto.
  all: intros Hnd; apply nodup_snoc; [exact Hnd|].
  all: intros Hin; apply in_map_iff in Hin as (c & Hc & Hin).
  all: match goal with E : existsb _ _ = false |- _ =>
         assert (existsb (fun c' => String.eqb (c_name c') n) (containers w) = true)
           by (apply existsb_exists; exists c; split; [exact Hin | now apply String.eqb_eq]);
         congruence end.
Qed.
Lemma frame_run_other m i n net l p : frame (keeps_other m) (containers_run env i n net l p).
Proof.
  intros w r w' H; unfold containers_run in H; run_inv H;
    unfold keeps_other; simpl; intros; rewrite ?in_app_iff; auto.
Qed.

Lemma frame_http_cb url : frame same_callbacks (http_get env url).
Proof. intros w r w' H; apply http_get_world in H; subst; reflexivity. Qed.
Lemma frame_http_rm url : frame same_removals (http_get env url).
Proof. intros w r w' H; apply http_get_world in H; subst; reflexivity. Qed.
Lemma frame_http_nd url : frame keeps_nodup (http_get env url).
Proof. intros w r w' H; apply http_get_world in H; subst; unfold keeps_nodup; auto. Qed.
Lemma frame_http_other m url : frame (keeps_other m) (http_get env url).
Proof. intros w r w' H; apply http_get_world in H; subst; unfold keeps_other; auto. Qed.

End Primitives.

(** *** Record updates *)

Ltac upd_tac := intros; apply frame_modify; intros;
  first [ reflexivity | unfold keeps_nodup, keeps_other, names; simpl; auto ].

Lemma frame_log_cb m : frame same_callbacks (modify (add_log m)). Proof. upd_tac. Qed.
Lemma frame_log_rm m : frame same_removals (modify (add_log m)). Proof. upd_tac. Qed.
Lemma frame_log_nd m : frame keeps_nodup (modify (add_log m)). Proof. upd_tac. Qed.
Lemma frame_log_other n m : frame (keeps_other n) (modify (add_log m)). Proof. upd_tac. Qed.
Lemma frame_rmlog_cb m : frame same_callbacks (modify (add_removal m)). Proof. upd_tac. Qed.
Lemma frame_rmlog_nd m : frame keeps_nodup (modify (add_removal m)). Proof. upd_tac. Qed.
Lemma frame_rmlog_other n m : frame (keeps_other n) (modify (add_removal m)). Proof. upd_tac. Qed.

Section Reporter.
Variable settings : Settings.
Variable env : Env.

Lemma update_status_world sid p :
  forall w r w', _update_status settings env sid p w = (r, w') ->
  w' = w \/ w' = add_callback (sid, p) w.
Proof.
  intros w r w' H; unfold _update_status, raise in H.
  destruct (String.eqb _ _); [injection H as _ <-; auto|].
  run_inv H; auto.
Qed.

Lemma frame_update_rm sid p : frame same_removals (_update_status settings env sid p).
Proof. intros w r w' H; apply update_status_world in H as [->| ->]; reflexivity. Qed.
Lemma frame_update_nd sid p : frame keeps_nodup (_update_status settings env sid p).
Proof.
  intros w r w' H; apply update_status_world in H as [->| ->]; unfold keeps_nodup; auto.
Qed.
Lemma frame_update_other n sid p : frame (keeps_other n) (_update_status settings env sid p).
Proof.
  intros w r w' H; apply update_status_world in H as [->| ->]; unfold keeps_other; auto.
Qed.
Lemma frame_safe_update_rm sid p : frame same_removals (_safe_update_status settings env sid p).
Proof.
  unfold _safe_update_status.
  apply frame_try; [eauto with frame_db | apply frame_update_rm
                   | intros; apply frame_log_rm].
Qed.
Lemma frame_safe_update_nd sid p : frame keeps_nodup (_safe_update_status settings env sid p).
Proof.
  unfold _safe_update_status.
  apply frame_try; [eauto with frame_db | apply frame_update_nd
                   | intros; apply frame_log_nd].
Qed.
Lemma frame_safe_update_other n sid p :
  frame (keeps_other n) (_safe_update_status settings env sid p).
Proof.
  unfold _safe_update_status.
  apply frame_try; [eauto with frame_db | apply frame_update_other
                   | intros; apply frame_log_other].
Qed.

End Reporter.

#[export] Hint Resolve frame_get frame_remove_force_cb frame_remove_force_rm
  frame_remove_force_nd frame_run_cb frame_run_rm frame_run_nd frame_run_other
  frame_http_cb frame_http_rm frame_http_nd frame_http_other
  frame_log_cb frame_log_rm frame_log_nd frame_log_other frame_rmlog_cb frame_rmlog_nd
  frame_rmlog_other frame_update_rm frame_update_nd frame_update_other
  frame_safe_update_rm frame_safe_update_nd frame_safe_update_other : frame_db.

(** *** Composite steps *)

Section Composite.
Variable settings : Settings.
Variable env : Env.
Variable build_project_domain : Z -> string.

Lemma frame_rie_cb n : frame same_callbacks (_remove_container_if_exists env n).
Proof. unfold _remove_container_if_exists; frame_auto. Qed.
Lemma frame_rie_rm n : frame same_removals (_remove_container_if_exists env n).
Proof. unfold _remove_container_if_exists; frame_auto. Qed.
Lemma frame_rie_nd n : frame keeps_nodup (_remove_container_if_exists env n).
Proof. unfold _remove_container_if_exists; frame_auto. Qed.

Lemma frame_rie_other n : frame (keeps_other n) (_remove_container_if_exists env n).
Proof.
  intros w r w' H; unfold _remove_container_if_exists, bind, try_except in H.
  destruct (containers_get n w) as [[c|e] w1] eqn:E.
  - pose proof (containers_get_name n w c w1 E) as Hn.
    apply containers_get_id in E; subst w1. unfold ret in H.
    rewrite <- Hn. exact (frame_remove_force_other env c w r w' H).
  - apply containers_get_id in E; subst w1.
    destruct (is_NotFound e); injection H as _ <-; apply keeps_other_refl.
Qed.

#[local] Hint Resolve frame_rie_cb frame_rie_rm frame_rie_nd frame_rie_other : frame_db.

Lemma frame_pull_cb i : frame same_callbacks (_docker_pull env i).
Proof. unfold _docker_pull, _docker_client; frame_auto. Qed.
Lemma frame_pull_rm i : frame same_removals (_docker_pull env i).
Proof. unfold _docker_pull, _docker_client; frame_auto. Qed.
Lemma frame_pull_nd i : frame keeps_nodup (_docker_pull env i).
Proof. unfold _docker_pull, _docker_client; frame_auto. Qed.
Lemma frame_pull_other n i : frame (keeps_other n) (_docker_pull env i).
Proof. unfold _docker_pull, _docker_client; frame_auto. Qed.

Lemma frame_net_cb : frame same_callbacks (_resolve_deploy_network settings env).
Proof. unfold _resolve_deploy_network; frame_auto. Qed.
Lemma frame_net_rm : frame same_removals (_resolve_deploy_network settings env).
Proof. unfold _resolve_deploy_network; frame_auto. Qed.
Lemma frame_net_nd : frame keeps_nodup (_resolve_deploy_network settings env).
Proof. unfold _resolve_deploy_network; frame_auto. Qed.
Lemma frame_net_other n : frame (keeps_other n) (_resolve_deploy_network settings env).
Proof. unfold _resolve_deploy_network; frame_auto. Qed.

#[local] Hint Resolve frame_net_cb frame_net_rm frame_net_nd frame_net_other : frame_db.

Lemma frame_start_cb t : frame same_callbacks (_start_container settings env t).
Proof. unfold _start_container, _docker_client; frame_auto. Qed.
Lemma frame_start_rm t : frame same_removals (_start_container settings env t).
Proof. unfold _start_container, _docker_client; frame_auto. Qed.
Lemma frame_start_nd t : frame keeps_nodup (_start_container settings env t).
Proof. unfold _start_container, _docker_client; frame_auto. Qed.
Lemma frame_start_other t :
  frame (keeps_other (_build_container_name (t_submission_id t))) (_start_container settings env t).
Proof. unfold _start_container, _docker_client; frame_auto. Qed.

Lemma frame_remove_cb n : frame same_callbacks (_remove_container env n).
Proof. unfold _remove_container, _docker_client; frame_auto. Qed.
Lemma frame_remove_nd n : frame keeps_nodup (_remove_container env n).
Proof. unfold _remove_container, _docker_client; frame_auto. Qed.
Lemma frame_remove_other n : frame (keeps_other n) (_remove_container env n).
Proof. unfold _remove_container, _docker_client; frame_auto. Qed.

Lemma frame_attempts R url k :
  (forall w, R w w) -> (forall w1 w2 w3, R w1 w2 -> R w2 w3 -> R w1 w3) ->
  frame R (http_get env url) -> frame R (health_attempts env url k).
Proof.
  intros Hr Ht Hg; induction k as [|k IH]; simpl.
  - apply frame_ret; exact Hr.
  - apply frame_bind; [exact Ht| |].
    + apply frame_try; [exact Ht| |intros; apply frame_ret; exact Hr].
      apply frame_bind; [exact Ht|exact Hg|intros; apply frame_ret; exact Hr].
    + intros [|]; [apply frame_ret; exact Hr|exact IH].
Qed.

Lemma frame_health_cb n : frame same_callbacks (_health_check settings env n).
Proof. unfold _health_check; frame_auto; apply frame_attempts; eauto with frame_db. Qed.
Lemma frame_health_rm n : frame same_removals (_health_check settings env n).
Proof. unfold _health_check; frame_auto; apply frame_attempts; eauto with frame_db. Qed.
Lemma frame_health_nd n : frame keeps_nodup (_health_check settings env n).
Proof. unfold _health_check; frame_auto; apply frame_attempts; eauto with frame_db. Qed.
Lemma frame_health_other m n : frame (keeps_other m) (_health_check settings env n).
Proof. unfold _health_check; frame_auto; apply frame_attempts; eauto with frame_db. Qed.

#[local] Hint Resolve frame_pull_cb frame_pull_rm frame_pull_nd frame_pull_other
  frame_start_cb frame_start_rm frame_start_nd frame_start_other frame_remove_cb frame_remove_nd
  frame_remove_other frame_health_cb frame_health_rm frame_health_nd frame_health_other
  : frame_db.

Lemma frame_cleanup_cb cur n : frame same_callbacks (_cleanup_old_container env cur n).
Proof. unfold _cleanup_old_container; frame_auto. Qed.
Lemma frame_cleanup_nd cur n : frame keeps_nodup (_cleanup_old_container env cur n).
Proof. unfold _cleanup_old_container; frame_auto. Qed.
Lemma frame_stop_cb n : frame same_callbacks (_stop_submission env n).
Proof. unfold _stop_submission; frame_auto. Qed.
Lemma frame_stop_nd n : frame keeps_nodup (_stop_submission env n).
Proof. unfold _stop_submission; frame_auto. Qed.

#[local] Hint Resolve frame_cleanup_cb frame_cleanup_nd frame_stop_cb frame_stop_nd : frame_db.

Lemma frame_online_rm sid n t : frame same_removals (deploy_until_online settings env sid n t).
Proof. unfold deploy_until_online; frame_auto. Qed.
Lemma frame_online_nd sid n t : frame keeps_nodup (deploy_until_online settings env sid n t).
Proof. unfold deploy_until_online; frame_auto. Qed.
Lemma frame_online_other n t :
  frame (keeps_other (_build_container_name (t_submission_id t)))
    (deploy_until_online settings env (t_submission_id t) n t).
Proof.
  unfold deploy_until_online; frame_auto.
Qed.
Lemma frame_failed_nd sid n e : frame keeps_nodup (deploy_failed settings env sid n e).
Proof. unfold deploy_failed; frame_auto. Qed.
Lemma frame_failed_other sid n e : frame (keeps_other n) (deploy_failed settings env sid n e).
Proof. unfold deploy_failed; frame_auto. Qed.

#[local] Hint Resolve frame_online_rm frame_online_nd frame_failed_nd : frame_db.

Lemma frame_deploy_nd sid n t : frame keeps_nodup (deploy_steps settings env sid n t).
Proof. unfold deploy_steps; frame_auto. Qed.

#[local] Hint Resolve frame_deploy_nd : frame_db.

Lemma frame_process_nd sid : frame keeps_nodup (_process_submission settings env build_project_domain sid).
Proof. unfold _process_submission, _load_deploy_target; frame_auto. Qed.

#[local] Hint Resolve frame_process_nd : frame_db.

Lemma frame_jobs_nd items : frame keeps_nodup (worker_jobs settings env build_project_domain items).
Proof.
  induction items as [|[raw|] rest IH]; cbn [worker_jobs]; [frame_auto| |exact IH].
  apply frame_bind; [eauto with frame_db|apply frame_lift; eauto with frame_db|].
  intros [j|]; [|exact IH].
  apply frame_bind; [eauto with frame_db| |intros; exact IH].
  unfold dispatch; frame_auto.
Qed.

Lemma frame_loop_nd items : frame keeps_nodup (_worker_loop settings env build_project_domain items).
Proof. unfold _worker_loop; pose proof (frame_jobs_nd items); frame_auto. Qed.

End Composite.

(** ** Inversion lemmas *)

Lemma bind_ok {A B} (m : M A) (k : A -> M B) w b w'' :
  bind m k w = (Ok b, w'') -> exists a w', m w = (Ok a, w') /\ k a w' = (Ok b, w'').
Proof.
  unfold bind; destruct (m w) as [[a|e] w'] eqn:E; intros H; [eauto|discriminate].
Qed.

Lemma bind_raise {A B} (m : M A) (k : A -> M B) w e w'' :
  bind m k w = (Raise e, w'') ->
  m w = (Raise e, w'') \/ exists a w', m w = (Ok a, w') /\ k a w' = (Raise e, w'').
Proof.
  unfold bind; destruct (m w) as [[a|e'] w'] eqn:E; intros H; [eauto|].
  injection H as -> ->; auto.
Qed.

Lemma py_str_int_inj a b : py_str_int a = py_str_int b -> a = b.
Proof.
  unfold py_str_int; intros H.
  apply (f_equal NilEmpty.int_of_string) in H. rewrite !NilEmpty.isi in H.
  injection H as H. rewrite <- (DecimalZ.of_to a), <- (DecimalZ.of_to b), H. reflexivity.
Qed.

Lemma container_name_inj a b : _build_container_name a = _build_container_name b -> a = b.
Proof. unfold _build_container_name; simpl; intros H; injection H as H; now apply py_str_int_inj. Qed.

Lemma find_name_absent n cs :
  ~ In n (map c_name cs) -> find (fun c => String.eqb (c_name c) n) cs = None.
Proof.
  intros Hn. destruct (find _ cs) as [c|] eqn:E; [|reflexivity].
  apply find_some in E as [Hin Hc]. apply String.eqb_eq in Hc.
  exfalso; apply Hn; rewrite <- Hc; now apply in_map.
Qed.

Lemma update_status_ok settings env sid p w w' :
  _update_status settings env sid p w = (Ok tt, w') -> w' = add_callback (sid, p) w.
Proof.
  unfold _update_status, raise; destruct (String.eqb _ _); [discriminate|].
  destruct (cb_resp env _) as [code|]; [|discriminate].
  destruct (400 <=? code)%Z; [discriminate|]. now intros [= <-].
Qed.

(** The effect of [_remove_container n]: the call is recorded, and the
    containers are either unchanged or lose the first one named [n]. *)
Lemma remove_container_world env n w r w' :
  _remove_container env n w = (r, w') ->
  w' = add_removal n w \/
  w' = set_containers (remove_first n (containers w)) (add_removal n w).
Proof.
  unfold _remove_container, _remove_container_if_exists, container_remove_force,
    _docker_client, containers_get, modify, bind, try_except, ret, raise.
  destruct (engine_up env); [|intros H; injection H as _ <-; auto].
  simpl. destruct (find _ _) as [c|] eqn:E.
  - apply find_some in E as [_ E]; apply String.eqb_eq in E. rewrite E.
    destruct (remove_ok env n); intros H; injection H as _ <-; auto.
  - simpl. intros H; injection H as _ <-; auto.
Qed.

Lemma remove_container_gone env n w r w' :
  engine_up env = true -> remove_ok env n = true -> NoDup (names w) ->
  _remove_container env n w = (r, w') -> r = Ok tt /\ ~ In n (names w').
Proof.
  intros Hup Hok Hnd.
  unfold _remove_container, _remove_container_if_exists, container_remove_force,
    _docker_client, containers_get, modify, bind, try_except, ret, raise.
  rewrite Hup; simpl. destruct (find _ _) as [c|] eqn:E.
  - apply find_some in E as [_ E]; apply String.eqb_eq in E. rewrite E, Hok; simpl.
    intros H; injection H as <- <-. split; [reflexivity|].
    unfold names; simpl. now apply remove_first_gone.
  - simpl. intros H; injection H as <- <-. split; [reflexivity|].
    unfold names; simpl. intros Hin. apply in_map_iff in Hin as (c & Hc & Hin).
    apply (find_none _ _ E) in Hin. simpl in Hin. rewrite Hc, String.eqb_refl in Hin.
    discriminate.
Qed.

(** ** Claims *)

(** *** Removal of an absent container *)

Lemma rie_absent env name w :
  ~ In name (names w) -> _remove_container_if_exists env name w = (Ok tt, w).
Proof.
  intros Habsent. unfold _remove_container_if_exists, containers_get, bind, try_except, ret.
  rewrite find_name_absent by exact Habsent. reflexivity.
Qed.

(** C10: removing a container by name when no container of that name exists
    catches the engine's not-found error and returns normally, leaving the
    engine unchanged; so does [_remove_container], used by the failure path
    and by stop jobs, the call being merely recorded. *)
Theorem remove_absent_container_is_noop (env : Env) (name : string) (w : World)
  (Habsent : ~ In name (names w)) :
  _remove_container_if_exists env name w = (Ok tt, w) /\
  (engine_up env = true -> _remove_container env name w = (Ok tt, add_removal name w)).
Proof.
  split; [now apply rie_absent|].
  intros Hup. unfold _remove_container, _docker_client, modify, bind, ret. rewrite Hup.
  apply rie_absent. exact Habsent.
Qed.

(** *** Stop jobs *)

Lemma stop_world env n w :
  exists m, _stop_submission env n w =
    (Ok tt, add_log m (set_containers (containers (snd (_remove_container env (_build_container_name n) w)))
                         (add_removal (_build_container_name n) w))).
Proof.
  unfold _stop_submission, try_except, bind, modify, any_exception.
  destruct (_remove_container env (_build_container_name n) w) as [[[]|e] w'] eqn:E;
    apply remove_container_world in E as [-> | ->]; eexists; reflexivity.
Qed.

(** C9: a stop job with submission id [N] removes the container named
    project-[N] and nothing else: it returns normally, issues no status
    callback, no health request and no container creation, records exactly
    one removal call, for project-[N], leaves every container of another
    name in place and adds none; when the engine is up and the removal
    works the container is gone. *)
Theorem stop_job_only_removes_its_container (settings : Settings) (env : Env)
  (build_project_domain : Z -> string) (N : Z) (w : World) :
  let '(r, w') := dispatch settings env build_project_domain (mkQueueJob (cps "stop") N) w in
  r = Ok tt /\ callbacks w' = callbacks w /\
  removals w' = removals w ++ [_build_container_name N] /\
  runs w' = runs w /\ gets w' = gets w /\
  (forall c, c_name c <> _build_container_name N ->
     (In c (containers w') <-> In c (containers w))) /\
  (forall c, In c (containers w') -> In c (containers w)) /\
  (engine_up env = true -> remove_ok env (_build_container_name N) = true ->
     NoDup (names w) -> ~ In (_build_container_name N) (names w')).
Proof.
  unfold dispatch. cbn [txt_eq cps list_ascii_of_string map nat_of_ascii]. simpl.
  destruct (stop_world env N w) as [m Hs]. rewrite Hs.
  destruct (_remove_container env (_build_container_name N) w) as [r0 w0] eqn:E.
  simpl. pose proof E as E'. apply remove_container_world in E as [-> | ->]; simpl.
  - repeat split; auto.
    intros Hup Hok Hnd. destruct (remove_container_gone env _ w r0 _ Hup Hok Hnd E') as [_ H].
    exact H.
  - repeat split; auto.
    all: try (intros; eapply remove_first_in; eassumption).
    all: try (intros; apply remove_first_keeps; assumption).
    intros Hup Hok Hnd. unfold names; simpl. now apply remove_first_gone.
Qed.

(** *** Health gate *)

Definition is_200 (o : option Z) : bool :=
  match o with Some code => Z.eqb code 200 | None => false end.

(** The first index among [n], ..., [n + k - 1] answered 200, counted
    from [n]. *)
Fixpoint first_200 (resp : nat -> option Z) (n k : nat) : option nat :=
  match k with
  | O => None
  | S k' => if is_200 (resp n) then Some O else option_map S (first_200 resp (S n) k')
  end.

Fixpoint add_gets (url : string) (m : nat) (w : World) : World :=
  match m with
  | O => w
  | S m' => add_gets url m' (add_get url w)
  end.

Lemma gets_add_gets url m w : gets (add_gets url m w) = gets w ++ repeat url m.
Proof.
  revert w; induction m as [|m IH]; intros w; simpl; [now rewrite app_nil_r|].
  rewrite IH; simpl. now rewrite <- app_assoc.
Qed.

Lemma health_attempts_spec env url k w :
  health_attempts env url k w =
  match first_200 (health_resp env) (List.length (gets w)) k with
  | Some i => (Ok true, add_gets url (S i) w)
  | None => (Ok false, add_gets url k w)
  end.
Proof.
  revert w; induction k as [|k IH]; intros w; [reflexivity|].
  cbn [health_attempts first_200].
  unfold bind at 1, try_except, bind, http_get, ret.
  assert (Hlen : List.length (gets (add_get url w)) = S (List.length (gets w)))
    by (simpl; rewrite length_app; simpl; lia).
  destruct (health_resp env (List.length (gets w))) as [code|] eqn:E; simpl.
  - destruct (Z.eqb code 200); [reflexivity|].
    rewrite IH, Hlen. destruct (first_200 _ _ _); reflexivity.
  - rewrite IH, Hlen. destruct (first_200 _ _ _); reflexivity.
Qed.

Lemma first_200_lt resp n k i : first_200 resp n k = Some i -> (i < k)%nat.
Proof.
  revert n i; induction k as [|k IH]; intros n i; simpl; [discriminate|].
  destruct (is_200 (resp n)); [intros [= <-]; lia|].
  destruct (first_200 resp (S n) k) as [j|] eqn:E; simpl; [|discriminate].
  intros [= <-]. apply IH in E. lia.
Qed.

Lemma first_200_ext resp resp' n k :
  (forall m, resp' m = Some 200 <-> resp m = Some 200) ->
  first_200 resp' n k = first_200 resp n k.
Proof.
  intros Hr. assert (Hb : forall m, is_200 (resp' m) = is_200 (resp m)).
  { intros m. specialize (Hr m). unfold is_200.
    destruct (resp' m) as [a|], (resp m) as [b|]; simpl.
    - destruct (Z.eqb_spec a 200), (Z.eqb_spec b 200); subst; auto.
      + destruct Hr as [H _]. specialize (H eq_refl). congruence.
      + destruct Hr as [_ H]. specialize (H eq_refl). congruence.
    - destruct (Z.eqb_spec a 200); subst; auto. destruct Hr as [H _].
      specialize (H eq_refl). discriminate.
    - destruct (Z.eqb_spec b 200); subst; auto. destruct Hr as [_ H].
      specialize (H eq_refl). discriminate.
    - reflexivity. }
  revert n; induction k as [|k IH]; intros n; simpl; [reflexivity|].
  rewrite Hb, IH. reflexivity.
Qed.

(** C6: the health gate passes without any request when disabled; enabled,
    it issues GETs to the health URL until one answers 200 (success) or
    [retries] have been issued (failure), so at most [retries] requests; a
    transport error and a non-200 answer are not distinguished (the outcome
    and the requests only depend on which answers are 200); with
    [retries = 3] and answers 500, 500, 200 it succeeds on the third GET. *)
Theorem health_gate_polls_until_200 (settings : Settings) (env : Env) (name : string)
  (w : World) :
  _health_check settings env name w =
    (if WORKER_HEALTHCHECK_ENABLED settings then
       let k := Z.to_nat (WORKER_HEALTHCHECK_RETRY settings) in
       match first_200 (health_resp env) (List.length (gets w)) k with
       | Some i => (Ok true, add_gets (health_url settings name) (S i) w)
       | None => (Ok false, add_gets (health_url settings name) k w)
       end
     else (Ok true, w)) /\
  (forall i, first_200 (health_resp env) (List.length (gets w))
               (Z.to_nat (WORKER_HEALTHCHECK_RETRY settings)) = Some i ->
             (S i <= Z.to_nat (WORKER_HEALTHCHECK_RETRY settings))%nat) /\
  (forall env', (forall m, health_resp env' m = Some 200 <-> health_resp env m = Some 200) ->
     _health_check settings env' name w = _health_check settings env name w) /\
  _health_check sample_settings health_example_env "project-5"%string sample_world =
    (Ok true, add_gets "http://project-5:8080/health"%string 3 sample_world).
Proof.
  split; [|split; [|split]].
  - unfold _health_check. destruct (WORKER_HEALTHCHECK_ENABLED settings); simpl;
      [apply health_attempts_spec|reflexivity].
  - intros i Hi. apply first_200_lt in Hi. lia.
  - intros env' Henv. unfold _health_check.
    destruct (WORKER_HEALTHCHECK_ENABLED settings); [|reflexivity].
    cbn [negb]. rewrite !health_attempts_spec, (first_200_ext _ _ _ _ Henv). reflexivity.
  - vm_compute. reflexivity.
Qed.

(** *** Cutover *)

Lemma remove_container_cb env n w r w' :
  _remove_container env n w = (r, w') -> callbacks w' = callbacks w.
Proof. intros H; apply remove_container_world in H as [-> | ->]; reflexivity. Qed.

Lemma remove_container_rm env n w r w' :
  _remove_container env n w = (r, w') -> removals w' = removals w ++ [n].
Proof. intros H; apply remove_container_world in H as [-> | ->]; reflexivity. Qed.

(** The cutover never raises; it is the identity unless the old id is set,
    non-zero and distinct from the new one, and then it is one removal call
    for the old name, which leaves every other container in place. *)
Lemma cleanup_world env cur new w :
  fst (_cleanup_old_container env cur new w) = Ok tt /\
  let w' := snd (_cleanup_old_container env cur new w) in
  match cur with
  | Some c =>
      if (c =? 0)%Z || (c =? new)%Z then w' = w
      else removals w' = removals w ++ [_build_container_name c] /\
           callbacks w' = callbacks w /\ keeps_other (_build_container_name c) w w'
  | None => w' = w
  end.
Proof.
  unfold _cleanup_old_container. destruct cur as [c|]; [|split; reflexivity].
  destruct ((c =? 0)%Z || (c =? new)%Z); [split; reflexivity|].
  unfold try_except, modify, any_exception.
  destruct (_remove_container env (_build_container_name c) w) as [[[]|e] w1] eqn:E;
    simpl; (split; [reflexivity|]);
    pose proof (frame_remove_other env _ w _ w1 E) as Ho;
    (split; [|split]); eauto using remove_container_rm, remove_container_cb.
Qed.

(** C7: once a deploy has reported ONLINE, the cutover removes the old
    container only when [current_submission_id] is set and differs from the
    new id (the one removal call is then for the old name); when it is unset
    or equal to the new id nothing at all happens; whatever the removal does,
    including failing, the deploy returns normally with no further status
    report, and the new submission's container stays in place. *)
Theorem cutover_removes_only_a_distinct_old_container (settings : Settings) (env : Env)
  (dom : Z -> string) (sid : Z) (w w1 w2 : World) (t : DeployTarget)
  (Hload : _load_deploy_target env dom sid w = (Ok t, w1))
  (Hon : deploy_until_online settings env sid (_build_container_name sid) t w1 = (Ok tt, w2)) :
  let '(r, w3) := _process_submission settings env dom sid w in
  r = Ok tt /\ callbacks w3 = callbacks w2 /\
  ((t_current_submission_id t = None \/ t_current_submission_id t = Some sid) -> w3 = w2) /\
  (removals w3 <> removals w2 ->
     exists c, t_current_submission_id t = Some c /\ c <> sid /\
       removals w3 = removals w2 ++ [_build_container_name c]) /\
  (forall c, In c (containers w2) -> c_name c = _build_container_name sid ->
     In c (containers w3)).
Proof.
  unfold _process_submission, bind at 1. rewrite Hload.
  unfold try_except, deploy_steps, bind at 1. rewrite Hon.
  destruct (cleanup_world env (t_current_submission_id t) sid w2) as [Hr Hw].
  destruct (_cleanup_old_container env (t_current_submission_id t) sid w2) as [r w3] eqn:E.
  simpl in Hr, Hw. subst r.
  destruct (t_current_submission_id t) as [c|] eqn:Ec.
  - destruct (Z.eqb_spec c 0) as [H0|H0], (Z.eqb_spec c sid) as [Hs|Hs]; simpl in Hw;
      try (subst w3; repeat split; auto; intros H; congruence).
    destruct Hw as (Hrm & Hcb & Ho).
    repeat split; auto.
    + intros [Hn|Hn]; [discriminate|]. injection Hn as Hn; congruence.
    + intros _. exists c. auto.
    + intros x Hx Hn. apply Ho; [|exact Hx]. rewrite Hn.
      intros Heq; apply container_name_inj in Heq; congruence.
  - subst w3. repeat split; auto. intros H; congruence.
Qed.

Lemma cutover_removes_only_a_distinct_old_container_witness :
  _load_deploy_target sample_env sample_domain 5 sample_world = (Ok sample_target, sample_world) /\
  deploy_until_online sample_settings sample_env 5 (_build_container_name 5) sample_target
    sample_world = (Ok tt, sample_online_world) /\
  let '(r, w3) := _process_submission sample_settings sample_env sample_domain 5 sample_world in
  r = Ok tt /\ callbacks w3 = callbacks sample_online_world /\
  ((t_current_submission_id sample_target = None \/
    t_current_submission_id sample_target = Some 5) -> w3 = sample_online_world) /\
  (removals w3 <> removals sample_online_world ->
     exists c, t_current_submission_id sample_target = Some c /\ c <> 5 /\
       removals w3 = removals sample_online_world ++ [_build_container_name c]) /\
  (forall c, In c (containers sample_online_world) -> c_name c = _build_container_name 5 ->
     In c (containers w3)).
Proof.
  assert (H1 : _load_deploy_target sample_env sample_domain 5 sample_world
               = (Ok sample_target, sample_world)) by reflexivity.
  assert (H2 : deploy_until_online sample_settings sample_env 5 (_build_container_name 5)
                 sample_target sample_world = (Ok tt, sample_online_world)) by (vm_compute; reflexivity).
  split; [exact H1|]. split; [exact H2|].
  exact (cutover_removes_only_a_distinct_old_container sample_settings sample_env sample_domain
           5 sample_world sample_world sample_online_world sample_target H1 H2).
Defined.

(** *** Successful deploy *)

Lemma online_callbacks settings env sid n t w w' :
  deploy_until_online settings env sid n t w = (Ok tt, w') ->
  exists p1 p2 p3 p4,
    callbacks w' = callbacks w ++ [(sid, p1); (sid, p2); (sid, p3); (sid, p4)] /\
    map p_status [p1; p2; p3; p4] = [PULLING; DEPLOYING; HEALTHCHECKING; ONLINE] /\
    p_domain p4 = truthy (Some (t_domain t)).
Proof.
  unfold deploy_until_online. intros H.
  apply bind_ok in H as ([] & w1 & H1 & H); apply update_status_ok in H1; subst w1.
  apply bind_ok in H as ([] & w2 & H2 & H); eapply frame_pull_cb in H2.
  apply bind_ok in H as ([] & w3 & H3 & H); apply update_status_ok in H3; subst w3.
  apply bind_ok in H as (a4 & w4 & H4 & H); eapply frame_start_cb in H4.
  apply bind_ok in H as ([] & w5 & H5 & H); apply update_status_ok in H5; subst w5.
  apply bind_ok in H as (ok & w6 & H6 & H); eapply frame_health_cb in H6.
  apply bind_ok in H as ([] & w7 & H7 & H).
  destruct ok; [|discriminate]. injection H7 as <-.
  apply update_status_ok in H; subst w'.
  do 4 eexists. split.
  { unfold same_callbacks in *. simpl in *. rewrite H6, H4, H2.
    rewrite <- !app_assoc. reflexivity. }
  split; reflexivity.
Qed.

Lemma load_ok env dom sid w t w' :
  _load_deploy_target env dom sid w = (Ok t, w') -> w' = w /\ t_domain t = dom sid.
Proof.
  unfold _load_deploy_target, raise, ret.
  destruct (db env sid) as [row|]; [|discriminate].
  destruct (truthy (row_image_ref row)); [|discriminate].
  intros [= <- <-]. split; reflexivity.
Qed.

(** C2: when the deploy steps of a job succeed, the job returns normally
    and exactly four status callbacks are issued for it, in the order
    PULLING, DEPLOYING, HEALTHCHECKING, ONLINE; the ONLINE one carries the
    domain computed by the naming function from the submission id (a
    non-empty string, as Python only sends a truthy domain). *)
Theorem successful_deploy_reports_four_statuses_in_order (settings : Settings) (env : Env)
  (dom : Z -> string) (sid : Z) (w w1 w2 : World) (t : DeployTarget)
  (Hload : _load_deploy_target env dom sid w = (Ok t, w1))
  (Hsteps : deploy_steps settings env sid (_build_container_name sid) t w1 = (Ok tt, w2)) :
  _process_submission settings env dom sid w = (Ok tt, w2) /\
  exists p1 p2 p3 p4,
    callbacks w2 = callbacks w ++ [(sid, p1); (sid, p2); (sid, p3); (sid, p4)] /\
    map p_status [p1; p2; p3; p4] = [PULLING; DEPLOYING; HEALTHCHECKING; ONLINE] /\
    (dom sid <> ""%string -> p_domain p4 = Some (dom sid)).
Proof.
  split.
  - unfold _process_submission, bind at 1. rewrite Hload.
    unfold try_except. rewrite Hsteps. reflexivity.
  - destruct (load_ok _ _ _ _ _ _ Hload) as [-> Hd].
    unfold deploy_steps in Hsteps. apply bind_ok in Hsteps as ([] & wa & Ha & Hc).
    eapply frame_cleanup_cb in Hc. unfold same_callbacks in Hc.
    destruct (online_callbacks _ _ _ _ _ _ _ Ha) as (p1 & p2 & p3 & p4 & Hcb & Hst & Hp4).
    exists p1, p2, p3, p4. rewrite Hc, Hcb. split; [reflexivity|]. split; [exact Hst|].
    intros Hne. rewrite Hp4, Hd. simpl. apply String.eqb_neq in Hne. rewrite Hne. reflexivity.
Qed.

Lemma successful_deploy_reports_four_statuses_in_order_witness :
  _load_deploy_target sample_env sample_domain 5 sample_world = (Ok sample_target, sample_world) /\
  deploy_steps sample_settings sample_env 5 (_build_container_name 5) sample_target
    sample_world = (Ok tt, sample_deployed_world) /\
  (_process_submission sample_settings sample_env sample_domain 5 sample_world
     = (Ok tt, sample_deployed_world) /\
   exists p1 p2 p3 p4,
    callbacks sample_deployed_world
      = callbacks sample_world ++ [(5, p1); (5, p2); (5, p3); (5, p4)] /\
    map p_status [p1; p2; p3; p4] = [PULLING; DEPLOYING; HEALTHCHECKING; ONLINE] /\
    (sample_domain 5 <> ""%string -> p_domain p4 = Some (sample_domain 5))).
Proof.
  assert (H1 : _load_deploy_target sample_env sample_domain 5 sample_world
               = (Ok sample_target, sample_world)) by reflexivity.
  assert (H2 : deploy_steps sample_settings sample_env 5 (_build_container_name 5)
                 sample_target sample_world = (Ok tt, sample_deployed_world))
    by (vm_compute; reflexivity).
  split; [exact H1|]. split; [exact H2|].
  exact (successful_deploy_reports_four_statuses_in_order sample_settings sample_env
           sample_domain 5 sample_world sample_world sample_deployed_world sample_target H1 H2).
Defined.

(** *** Failure path *)

Lemma safe_update_world settings env sid p w :
  let '(r, w') := _safe_update_status settings env sid p w in
  r = Ok tt /\ containers w' = containers w /\ removals w' = removals w /\
  callbacks w' = callbacks w ++
    (if String.eqb (WORKER_API_TOKEN settings) "" then [] else [(sid, p)]).
Proof.
  unfold _safe_update_status, try_except, _update_status, raise, modify, any_exception.
  destruct (String.eqb _ _); simpl; [rewrite app_nil_r; auto|].
  destruct (cb_resp env _) as [code|]; [destruct (400 <=? code)%Z|]; simpl; auto.
Qed.

Lemma try_remove_world env n (h : exc -> M unit) w r w' :
  (forall ce w0, exists m, h ce w0 = (Ok tt, add_log m w0)) ->
  try_except (_remove_container env n) any_exception h w = (r, w') ->
  r = Ok tt /\ containers w' = containers (snd (_remove_container env n w)) /\
  removals w' = removals w ++ [n] /\ callbacks w' = callbacks w.
Proof.
  intros Hh. unfold try_except.
  destruct (_remove_container env n w) as [r1 w1] eqn:E.
  pose proof (remove_container_rm _ _ _ _ _ E) as Hr1.
  pose proof (remove_container_cb _ _ _ _ _ E) as Hb1.
  destruct r1 as [[]|ce]; simpl.
  - intros [= <- <-]. auto.
  - destruct (Hh ce w1) as [m Hm]. rewrite Hm. intros [= <- <-]. simpl. auto.
Qed.

(** The [except] handler: it returns normally, makes one removal call, for
    [n], reports FAILED with error code worker_failed when a token is
    configured (nothing is sent otherwise), leaves every container of
    another name in place and, when the removal works, [n] is gone. *)
Lemma failed_world settings env sid n e w :
  let '(r, w') := deploy_failed settings env sid n e w in
  r = Ok tt /\ removals w' = removals w ++ [n] /\ keeps_other n w w' /\
  (exists p, callbacks w' = callbacks w ++
       (if String.eqb (WORKER_API_TOKEN settings) "" then [] else [(sid, p)]) /\
     p_status p = FAILED /\ p_error_code p = Some "worker_failed"%string) /\
  (engine_up env = true -> remove_ok env n = true -> NoDup (names w) -> ~ In n (names w')).
Proof.
  unfold deploy_failed, bind at 1, modify at 1.
  set (w0 := add_log _ w).
  assert (Hw0 : containers w0 = containers w /\ removals w0 = removals w /\
                callbacks w0 = callbacks w) by (repeat split).
  clearbody w0. destruct Hw0 as (Hc0 & Hr0 & Hb0).
  unfold bind at 1.
  destruct (try_except (_remove_container env n) any_exception _ w0) as [r1 w1] eqn:E.
  apply try_remove_world in E as (-> & Hc1 & Hr1 & Hb1); [|intros; eexists; reflexivity].
  destruct (_remove_container env n w0) as [r1' w1'] eqn:E'. simpl in Hc1.
  pose proof (frame_remove_other env n w0 r1' w1' E') as Ho1.
  assert (Hg1 : engine_up env = true -> remove_ok env n = true -> NoDup (names w) ->
                ~ In n (names w1)).
  { intros Hup Hok Hnd. unfold names in Hnd |- *. rewrite <- Hc0 in Hnd. rewrite Hc1.
    exact (proj2 (remove_container_gone env n w0 r1' w1' Hup Hok Hnd E')). }
  pose proof (safe_update_world settings env sid
    (_build_status_payload FAILED (Some "部署失败"%string) (Some "worker_failed"%string)
       (Some ("部署失败: " ++ exc_str e ++ nl ++ "已执行清理")%string) None) w1) as Hs.
  destruct (_safe_update_status _ _ _ _ w1) as [r2 w2]. destruct Hs as (-> & Hc2 & Hr2 & Hb2).
  split; [reflexivity|]. split; [|split; [|split]].
  - rewrite Hr2, Hr1, Hr0. reflexivity.
  - intros c Hn Hin. rewrite Hc2, Hc1. apply Ho1; [exact Hn|]. rewrite Hc0. exact Hin.
  - eexists. split; [rewrite Hb2, Hb1, Hb0; reflexivity | split; reflexivity].
  - intros Hup Hok Hnd. unfold names. rewrite Hc2. exact (Hg1 Hup Hok Hnd).
Qed.

Lemma steps_raise settings env sid n t w e w' :
  deploy_steps settings env sid n t w = (Raise e, w') ->
  deploy_until_online settings env sid n t w = (Raise e, w').
Proof.
  unfold deploy_steps. intros H. apply bind_raise in H as [H|(a & w1 & _ & H)]; [exact H|].
  destruct (cleanup_world env (t_current_submission_id t) sid w1) as [Hr _].
  rewrite H in Hr. discriminate.
Qed.

(** C3 (the previously-live container is removed on the failure path of a
    redeploy of the live submission): submission 5 is live in container
    project-5 and is deployed again; the pull fails, and the failure path
    removes project-5, the previously-live container, although the job
    returns normally. *)
Lemma redeploy_failure_removes_live_container :
  row_current_submission_id (sample_row 5 (Some 5)) = Some 5 /\
  In live5 (containers redeploy_world) /\
  let '(r, w') := _process_submission sample_settings redeploy_env sample_domain 5
                    redeploy_world in
  r = Ok tt /\ ~ In live5 (containers w') /\ removals w' = ["project-5"%string].
Proof.
  split; [reflexivity|]. split; [left; reflexivity|].
  vm_compute. split; [reflexivity|]. split; [intros []|reflexivity].
Qed.

(** C3 (amended): when a pipeline step after resolution fails (pull,
    start, health gate or a status report) the job still returns normally;
    the whole path makes exactly one removal call, for the container named
    after the submission id itself (so no cutover), and a failure of that
    removal is swallowed; FAILED with error code worker_failed is reported
    through the safe reporter when a token is configured; every container
    of another name, in particular a previously-live container of another
    submission id, is left in place; when the removal works the
    submission's container is gone. *)
Theorem failed_deploy_removes_only_its_own_container (settings : Settings) (env : Env)
  (dom : Z -> string) (sid : Z) (w w1 w2 : World) (t : DeployTarget) (e : exc)
  (Hload : _load_deploy_target env dom sid w = (Ok t, w1))
  (Hid : t_submission_id t = sid)
  (Hfail : deploy_steps settings env sid (_build_container_name sid) t w1 = (Raise e, w2)) :
  let '(r, w3) := _process_submission settings env dom sid w in
  r = Ok tt /\
  removals w3 = removals w ++ [_build_container_name sid] /\
  (exists p, callbacks w3 = callbacks w2 ++
       (if String.eqb (WORKER_API_TOKEN settings) "" then [] else [(sid, p)]) /\
     p_status p = FAILED /\ p_error_code p = Some "worker_failed"%string) /\
  keeps_other (_build_container_name sid) w w3 /\
  (engine_up env = true -> remove_ok env (_build_container_name sid) = true ->
     NoDup (names w) -> ~ In (_build_container_name sid) (names w3)).
Proof.
  destruct (load_ok _ _ _ _ _ _ Hload) as [-> _].
  pose proof (steps_raise _ _ _ _ _ _ _ _ Hfail) as Hon.
  assert (Hrm : removals w2 = removals w) by (eapply frame_online_rm; exact Hon).
  assert (Hnd : keeps_nodup w w2) by (eapply frame_online_nd; exact Hon).
  assert (Ho : keeps_other (_build_container_name sid) w w2).
  { subst sid. eapply frame_online_other; exact Hon. }
  unfold _process_submission, bind at 1. rewrite Hload.
  unfold try_except. rewrite Hfail. simpl any_exception. cbv iota beta.
  pose proof (failed_world settings env sid (_build_container_name sid) e w2) as Hf.
  destruct (deploy_failed settings env sid (_build_container_name sid) e w2) as [r w3].
  destruct Hf as (-> & Hr3 & Ho3 & Hcb & Hg3).
  split; [reflexivity|]. split; [rewrite Hr3, Hrm; reflexivity|].
  split; [exact Hcb|]. split.
  - eapply keeps_other_trans; eassumption.
  - intros Hup Hok Hn. apply Hg3; auto.
Qed.

Lemma failed_deploy_removes_only_its_own_container_witness :
  _load_deploy_target redeploy_env sample_domain 5 redeploy_world
    = (Ok (mkTarget 5 1 "registry.test/app:1" (sample_domain 5) (Some 5)), redeploy_world) /\
  t_submission_id (mkTarget 5 1 "registry.test/app:1" (sample_domain 5) (Some 5)) = 5 /\
  deploy_steps sample_settings redeploy_env 5 (_build_container_name 5)
    (mkTarget 5 1 "registry.test/app:1" (sample_domain 5) (Some 5)) redeploy_world
    = (Raise (DockerError "pull of registry.test/app:1 failed"),
       snd (deploy_steps sample_settings redeploy_env 5 (_build_container_name 5)
              (mkTarget 5 1 "registry.test/app:1" (sample_domain 5) (Some 5)) redeploy_world)) /\
  let '(r, w3) := _process_submission sample_settings redeploy_env sample_domain 5 redeploy_world in
  r = Ok tt /\
  removals w3 = removals redeploy_world ++ [_build_container_name 5] /\
  (exists p, callbacks w3 =
       callbacks (snd (deploy_steps sample_settings redeploy_env 5 (_build_container_name 5)
              (mkTarget 5 1 "registry.test/app:1" (sample_domain 5) (Some 5)) redeploy_world)) ++
       (if String.eqb (WORKER_API_TOKEN sample_settings) "" then [] else [(5, p)]) /\
     p_status p = FAILED /\ p_error_code p = Some "worker_failed"%string) /\
  keeps_other (_build_container_name 5) redeploy_world w3 /\
  (engine_up redeploy_env = true -> remove_ok redeploy_env (_build_container_name 5) = true ->
     NoDup (names redeploy_world) -> ~ In (_build_container_name 5) (names w3)).
Proof.
  assert (H1 : _load_deploy_target redeploy_env sample_domain 5 redeploy_world
    = (Ok (mkTarget 5 1 "registry.test/app:1" (sample_domain 5) (Some 5)), redeploy_world))
    by reflexivity.
  assert (H3 : deploy_steps sample_settings redeploy_env 5 (_build_container_name 5)
    (mkTarget 5 1 "registry.test/app:1" (sample_domain 5) (Some 5)) redeploy_world
    = (Raise (DockerError "pull of registry.test/app:1 failed"),
       snd (deploy_steps sample_settings redeploy_env 5 (_build_container_name 5)
              (mkTarget 5 1 "registry.test/app:1" (sample_domain 5) (Some 5)) redeploy_world)))
    by (vm_compute; reflexivity).
  split; [exact H1|]. split; [reflexivity|]. split; [exact H3|].
  exact (failed_deploy_removes_only_its_own_container sample_settings redeploy_env sample_domain
           5 redeploy_world redeploy_world _ _ _ H1 eq_refl H3).
Defined.

(** *** One container per submission *)

Lemma run_ok_in env image name net labels port w w' :
  containers_run env image name net labels port w = (Ok tt, w') -> In name (names w').
Proof.
  unfold containers_run. destruct (existsb _ _); [discriminate|].
  destruct (run_outcome env image); try discriminate.
  intros [= <-]. unfold names; simpl. rewrite map_app. apply in_or_app. right; left; reflexivity.
Qed.

Lemma start_ok_in settings env t w n w' :
  _start_container settings env t w = (Ok n, w') ->
  n = _build_container_name (t_submission_id t) /\ In n (names w').
Proof.
  unfold _start_container. intros H.
  apply bind_ok in H as ([] & w1 & _ & H).
  apply bind_ok in H as (net & w2 & _ & H).
  destruct (truthy net) as [nn|]; [|discriminate].
  apply bind_ok in H as ([] & w3 & _ & H).
  apply bind_ok in H as ([] & w4 & H4 & H).
  injection H as <- <-. split; [reflexivity|]. eapply run_ok_in; exact H4.
Qed.

(** C4: the engine never holds two containers of the same name, hence
    never two for one submission id (the name is project-<id> and the
    naming is injective): from a state without duplicates, the worker loop
    over any sequence of queue items, replays of a deploy job included,
    ends without duplicates; and a launch that succeeds leaves exactly one
    container of its name project-<id>. *)
Theorem one_container_per_submission (settings : Settings) (env : Env) (dom : Z -> string)
  (items : list (option text)) (w : World) (Hnd : NoDup (names w)) :
  NoDup (names (snd (_worker_loop settings env dom items w))) /\
  (forall a b, _build_container_name a = _build_container_name b -> a = b) /\
  (forall t w0 n w', NoDup (names w0) -> _start_container settings env t w0 = (Ok n, w') ->
     n = _build_container_name (t_submission_id t) /\
     count_occ string_dec (names w') n = 1%nat).
Proof.
  split; [|split; [exact container_name_inj|]].
  - destruct (_worker_loop settings env dom items w) as [r w'] eqn:E.
    exact (frame_loop_nd settings env dom items w r w' E Hnd).
  - intros t w0 n w' Hnd0 Hs.
    pose proof (frame_start_nd settings env t w0 _ w' Hs Hnd0) as Hnd'.
    destruct (start_ok_in _ _ _ _ _ _ Hs) as [Hn Hin].
    split; [exact Hn|]. apply (proj1 (NoDup_count_occ' string_dec _) Hnd' n Hin).
Qed.

(** The same deploy job for submission 5 replayed twice over the sample
    engine, where project-4 is live. *)
Lemma one_container_per_submission_witness :
  NoDup (names sample_world) /\
  NoDup (names (snd (_worker_loop sample_settings sample_env sample_domain
                        [Some (cps "5"); Some (cps "5")] sample_world))) /\
  names (snd (_worker_loop sample_settings sample_env sample_domain
                [Some (cps "5"); Some (cps "5")] sample_world)) = ["project-5"%string].
Proof.
  assert (H : NoDup (names sample_world)) by (constructor; [intros []|constructor]).
  split; [exact H|]. split.
  - exact (proj1 (one_container_per_submission sample_settings sample_env sample_domain
                    [Some (cps "5"); Some (cps "5")] sample_world H)).
  - vm_compute. reflexivity.
Defined.

(** *** A job whose target cannot be resolved *)

Lemma load_fails env dom sid w :
  (db env sid = None \/
   exists row, db env sid = Some row /\ truthy (row_image_ref row) = None) ->
  exists msg, _load_deploy_target env dom sid w = (Raise (RuntimeError msg), w).
Proof.
  unfold _load_deploy_target, raise. intros [H|(row & H & Hi)]; rewrite H; [eauto|].
  rewrite Hi. eauto.
Qed.

(** C1 (the failure of a job's target resolution is not contained): with a
    token configured, a deploy job whose submission is missing or has no
    image reference makes [_load_deploy_target] raise outside the [try] of
    [_process_submission]; nothing catches it in [_worker_loop], so the
    worker terminates with that error, with no FAILED report issued, no
    container touched and the later queue items never processed (the
    outcome does not depend on them). *)
Theorem unresolved_target_terminates_worker (settings : Settings) (env : Env)
  (dom : Z -> string) (raw : text) (job : QueueJob) (rest : list (option text)) (w : World)
  (Htoken : WORKER_API_TOKEN settings <> ""%string)
  (Hparse : _parse_queue_item (Some raw) = Ok (Some job))
  (Hdeploy : txt_eq (action job) (cps "deploy") = true)
  (Hmissing : db env (submission_id job) = None \/
              exists row, db env (submission_id job) = Some row /\
                          truthy (row_image_ref row) = None) :
  exists msg,
    _worker_loop settings env dom (Some raw :: rest) w = (Raise (RuntimeError msg), w).
Proof.
  destruct (load_fails env dom (submission_id job) w Hmissing) as [msg Hl].
  exists msg. unfold _worker_loop. apply String.eqb_neq in Htoken. rewrite Htoken.
  cbn [worker_jobs]. unfold bind at 1, lift. rewrite Hparse.
  unfold bind at 1, dispatch. rewrite Hdeploy.
  unfold _process_submission, bind at 1. rewrite Hl. reflexivity.
Qed.

(** Submission 9 is not in the sample database; the job for 7 after it is
    never reached. *)
Lemma unresolved_target_terminates_worker_witness :
  WORKER_API_TOKEN sample_settings <> ""%string /\
  _parse_queue_item (Some (cps "9")) = Ok (Some (mkQueueJob (cps "deploy") 9)) /\
  txt_eq (action (mkQueueJob (cps "deploy") 9)) (cps "deploy") = true /\
  db sample_env 9 = None /\
  exists msg,
    _worker_loop sample_settings sample_env sample_domain
      [Some (cps "9"); Some (cps "7")] sample_world
    = (Raise (RuntimeError msg), sample_world).
Proof.
  assert (H1 : WORKER_API_TOKEN sample_settings <> ""%string) by discriminate.
  assert (H2 : _parse_queue_item (Some (cps "9")) = Ok (Some (mkQueueJob (cps "deploy") 9)))
    by (vm_compute; reflexivity).
  assert (H3 : txt_eq (action (mkQueueJob (cps "deploy") 9)) (cps "deploy") = true)
    by reflexivity.
  assert (H4 : db sample_env 9 = None) by reflexivity.
  split; [exact H1|]. split; [exact H2|]. split; [exact H3|]. split; [exact H4|].
  exact (unresolved_target_terminates_worker sample_settings sample_env sample_domain
           (cps "9") (mkQueueJob (cps "deploy") 9) [Some (cps "7")] sample_world
           H1 H2 H3 (or_introl H4)).
Defined.

(** *** The queue-message decoder on an infinite submission id *)

(** C5 (the decoder is not total): [json.loads] accepts [Infinity] and
    [1e999] as the float infinity, [int] of it raises OverflowError, which
    the [except (TypeError, ValueError)] around it does not catch; so the
    decoder raises on such a message, and the worker loop terminates on it
    without processing the next item.  The examples of the spec do hold:
    "42" is a deploy of 42, and "abc", "{}" and a launch action give no
    job. *)
Theorem decoder_raises_on_infinite_submission_id :
  (exists msg, decode "{'action':'deploy','submission_id':Infinity}"
               = Raise (OverflowError msg)) /\
  (exists msg, decode "{'action':'stop','submission_id':1e999}"
               = Raise (OverflowError msg)) /\
  (exists msg, _worker_loop sample_settings sample_env sample_domain
                 [Some (cpsq "{'action':'deploy','submission_id':Infinity}"); Some (cps "5")]
                 sample_world = (Raise (OverflowError msg), sample_world)) /\
  decode "42" = Ok (Some (mkQueueJob (cps "deploy") 42)) /\
  decode "abc" = Ok None /\ decode "{}" = Ok None /\
  decode "{'action':'launch','submission_id':1}" = Ok None.
Proof.
  split; [eexists; vm_compute; reflexivity|].
  split; [eexists; vm_compute; reflexivity|].
  split; [eexists; vm_compute; reflexivity|].
  repeat split; vm_compute; reflexivity.
Qed.

(** *** Domain of the deploy target *)

(** C8 (a pinned domain is not preferred): whatever the submission row
    holds, in particular a domain persisted on it, the target built by
    [_load_deploy_target] has the domain computed by the naming function
    from the submission id. *)
Theorem deploy_target_domain_is_always_derived (env : Env) (dom : Z -> string) (sid : Z)
  (w w' : World) (t : DeployTarget)
  (Hload : _load_deploy_target env dom sid w = (Ok t, w')) :
  t_domain t = dom sid.
Proof. exact (proj2 (load_ok env dom sid w t w' Hload)). Qed.

(** Submission 5 has the domain pinned.example.test persisted; the target
    gets s5.example.test. *)
Lemma deploy_target_domain_is_always_derived_witness :
  option_map row_domain (db pinned_env 5) = Some (Some "pinned.example.test"%string) /\
  _load_deploy_target pinned_env sample_domain 5 sample_world
    = (Ok (mkTarget 5 1 "registry.test/app:1" "s5.example.test" (Some 4)), sample_world) /\
  t_domain (mkTarget 5 1 "registry.test/app:1" "s5.example.test" (Some 4)) = sample_domain 5 /\
  sample_domain 5 <> "pinned.example.test"%string.
Proof.
  assert (H : _load_deploy_target pinned_env sample_domain 5 sample_world
    = (Ok (mkTarget 5 1 "registry.test/app:1" "s5.example.test" (Some 4)), sample_world))
    by (vm_compute; reflexivity).
  split; [reflexivity|]. split; [exact H|]. split.
  - exact (deploy_target_domain_is_always_derived pinned_env sample_domain 5 sample_world
             sample_world _ H).
  - vm_compute. discriminate.
Defined.

(** No container project-9 exists on the sample engine. *)
Lemma remove_absent_container_is_noop_witness :
  ~ In "project-9"%string (names sample_world) /\
  _remove_container_if_exists sample_env "project-9" sample_world = (Ok tt, sample_world) /\
  (engine_up sample_env = true ->
   _remove_container sample_env "project-9" sample_world
     = (Ok tt, add_removal "project-9" sample_world)).
Proof.
  assert (H : ~ In "project-9"%string (names sample_world))
    by (unfold names; simpl; intros [Hc|[]]; discriminate).
  split; [exact H|].
  exact (remove_absent_container_is_noop sample_env "project-9" sample_world H).
Defined.

(** ** Further properties of the worker *)

(** *** Bare integer messages *)

(** The value of a digit sequence, most significant digit first. *)
Fixpoint uval (u : Decimal.uint) (acc : Z) : Z :=
  match u with
  | Decimal.Nil => acc
  | Decimal.D0 u => uval u (acc * 10)
  | Decimal.D1 u => uval u (acc * 10 + 1)
  | Decimal.D2 u => uval u (acc * 10 + 2)
  | Decimal.D3 u => uval u (acc * 10 + 3)
  | Decimal.D4 u => uval u (acc * 10 + 4)
  | Decimal.D5 u => uval u (acc * 10 + 5)
  | Decimal.D6 u => uval u (acc * 10 + 6)
  | Decimal.D7 u => uval u (acc * 10 + 7)
  | Decimal.D8 u => uval u (acc * 10 + 8)
  | Decimal.D9 u => uval u (acc * 10 + 9)
  end.

Lemma cps_cons a s : cps (String a s) = Z.of_nat (nat_of_ascii a) :: cps s.
Proof. reflexivity. Qed.

Lemma int_digits_uint u acc :
  int_digits acc true (cps (NilEmpty.string_of_uint u)) = Some (uval u acc).
Proof.
  revert acc; induction u; intros acc; [reflexivity| ..]; simpl;
    rewrite IHu; do 2 f_equal; lia.
Qed.

Lemma pos_of_uint_acc_uval u p : Z.pos (Pos.of_uint_acc u p) = uval u (Z.pos p).
Proof.
  revert p; induction u; intros p; cbn [Pos.of_uint_acc uval]; rewrite ?IHu;
    try reflexivity; f_equal; rewrite ?Pos2Z.inj_add, ?Pos2Z.inj_mul; lia.
Qed.

Lemma z_of_uint_uval u : Z.of_uint u = uval u 0.
Proof.
  unfold Z.of_uint. induction u; simpl; rewrite ?pos_of_uint_acc_uval; try reflexivity.
  exact IHu.
Qed.

Lemma uint_nonnil_digits u acc prev :
  u <> Decimal.Nil -> int_digits acc prev (cps (NilEmpty.string_of_uint u)) = Some (uval u acc).
Proof.
  intros Hu. destruct u; [congruence| ..]; cbn [NilEmpty.string_of_uint];
    rewrite cps_cons; cbn -[cps]; rewrite int_digits_uint; simpl; do 2 f_equal; lia.
Qed.

Lemma uint_digits_nonspace u c :
  In c (cps (NilEmpty.string_of_uint u)) -> is_digit c = true.
Proof.
  induction u; simpl; [intros []|..]; intros [<-|H]; auto.
Qed.

Lemma digit_nonspace c : is_digit c = true -> py_isspace c = false.
Proof.
  unfold is_digit, py_isspace. intros H. apply andb_true_iff in H as [H1 H2].
  apply Z.leb_le in H1. apply Z.leb_le in H2.
  repeat (apply orb_false_iff; split); try (apply andb_false_iff);
    rewrite ?Z.eqb_neq, ?Z.leb_gt; lia.
Qed.

Lemma lstrip_spaces ws t :
  Forall (fun c => py_isspace c = true) ws -> lstrip (ws ++ t) = lstrip t.
Proof. induction 1 as [|c ws Hc _ IH]; simpl; [reflexivity|]. rewrite Hc. exact IH. Qed.

Lemma lstrip_keep c t : py_isspace c = false -> lstrip (c :: t) = c :: t.
Proof. simpl. intros ->. reflexivity. Qed.

Lemma py_strip_pad ws1 t ws2 :
  Forall (fun c => py_isspace c = true) ws1 -> Forall (fun c => py_isspace c = true) ws2 ->
  t <> [] -> Forall (fun c => py_isspace c = false) t ->
  py_strip (ws1 ++ t ++ ws2) = t.
Proof.
  intros H1 H2 Hne Ht. unfold py_strip. rewrite lstrip_spaces by exact H1.
  destruct t as [|c r]; [congruence|].
  replace (lstrip ((c :: r) ++ ws2)) with ((c :: r) ++ ws2)
    by (symmetry; apply lstrip_keep; inversion Ht; auto).
  rewrite rev_app_distr, lstrip_spaces by (apply Forall_rev; exact H2).
  assert (Hr : Forall (fun c => py_isspace c = false) (rev (c :: r))) by (apply Forall_rev; exact Ht).
  destruct (rev (c :: r)) as [|d r'] eqn:E.
  - apply (f_equal (@List.length Z)) in E. rewrite length_rev in E. discriminate.
  - rewrite lstrip_keep by (inversion Hr; auto). rewrite <- E, rev_involutive. reflexivity.
Qed.

Lemma str_int_chars n :
  cps (py_str_int n) <> [] /\ Forall (fun c => py_isspace c = false) (cps (py_str_int n)).
Proof.
  assert (Hu : forall p, Forall (fun c => py_isspace c = false)
                           (cps (NilEmpty.string_of_uint (Pos.to_uint p)))).
  { intros p. apply Forall_forall. intros c Hc. apply digit_nonspace.
    exact (uint_digits_nonspace _ _ Hc). }
  assert (Hn : forall p, cps (NilEmpty.string_of_uint (Pos.to_uint p)) <> []).
  { intros p. pose proof (DecimalPos.Unsigned.to_uint_nonnil p) as H.
    destruct (Pos.to_uint p); [congruence| ..]; discriminate. }
  unfold py_str_int. destruct n as [|p|p]; simpl Z.to_int; unfold NilEmpty.string_of_int.
  - split; [discriminate|]. repeat constructor.
  - split; [apply Hn|apply Hu].
  - rewrite cps_cons. split; [discriminate|]. constructor; [reflexivity|apply Hu].
Qed.

Lemma py_int_of_text_str n : py_int_of_text (cps (py_str_int n)) = Some n.
Proof.
  assert (Hs : py_strip (cps (py_str_int n)) = cps (py_str_int n)).
  { destruct (str_int_chars n) as [Hne Hf].
    rewrite <- (app_nil_l (cps (py_str_int n))), <- (app_nil_r (cps (py_str_int n))) at 1.
    apply py_strip_pad; auto. }
  assert (Hv : forall p, int_digits 0 false (cps (NilEmpty.string_of_uint (Pos.to_uint p)))
                         = Some (Z.pos p)).
  { intros p. rewrite uint_nonnil_digits by apply DecimalPos.Unsigned.to_uint_nonnil.
    rewrite <- z_of_uint_uval. f_equal. exact (DecimalZ.of_to (Z.pos p)). }
  unfold py_int_of_text. rewrite Hs. unfold py_str_int.
  destruct n as [|p|p]; [reflexivity| |].
  - simpl Z.to_int. unfold NilEmpty.string_of_int. rewrite <- (Hv p).
    pose proof (DecimalPos.Unsigned.to_uint_nonnil p) as H.
    destruct (Pos.to_uint p); [congruence| ..]; reflexivity.
  - simpl Z.to_int. unfold NilEmpty.string_of_int. rewrite cps_cons.
    change (Z.of_nat (nat_of_ascii "-")) with 45. cbn iota beta. rewrite Hv. reflexivity.
Qed.



(** *** What the decoder can return *)

Lemma py_int_json_raise v e :
  py_int_json v = Raise e -> is_TypeError_or_ValueError e = false ->
  exists m, e = OverflowError m.
Proof.
  destruct v as [| | |f| | |]; simpl; try discriminate;
    try (intros [= <-]; discriminate).
  - destruct f; simpl; try discriminate; intros [= <-]; [eauto|discriminate].
  - destruct (py_int_of_text s); [discriminate|]. intros [= <-]; discriminate.
Qed.


(** *** Blank messages *)

Lemma lstrip_all_spaces t : Forall (fun c => py_isspace c = true) t -> lstrip t = [].
Proof. intros H. rewrite <- (app_nil_r t). rewrite lstrip_spaces by exact H. reflexivity. Qed.

(** A queue value that is missing or consists of whitespace only (the
    empty message included) gives no job. *)
Theorem parse_blank_message_is_no_job (t : text)
  (Hblank : Forall (fun c => py_isspace c = true) t) :
  _parse_queue_item None = Ok None /\ _parse_queue_item (Some t) = Ok None.
Proof.
  split; [reflexivity|]. unfold _parse_queue_item, py_strip.
  rewrite (lstrip_all_spaces t Hblank). reflexivity.
Qed.

Lemma parse_blank_message_is_no_job_witness :
  Forall (fun c => py_isspace c = true) [32; 9; 12288; 10] /\
  _parse_queue_item None = Ok None /\ _parse_queue_item (Some [32; 9; 12288; 10]) = Ok None.
Proof.
  assert (H : Forall (fun c => py_isspace c = true) [32; 9; 12288; 10]) by repeat constructor.
  split; [exact H|]. exact (parse_blank_message_is_no_job _ H).
Defined.

(** *** Status reporter *)

(** [_update_status]: without a token it raises RuntimeError before any
    request; with one it sends exactly one callback, and returns normally
    exactly when the control plane answers with a status below 400 (a
    transport error or a status of 400 or more raises). *)
Theorem update_status_outcome (settings : Settings) (env : Env) (sid : Z) (p : Payload)
  (w : World) :
  let '(r, w') := _update_status settings env sid p w in
  if String.eqb (WORKER_API_TOKEN settings) "" then
    (exists m, r = Raise (RuntimeError m)) /\ w' = w
  else
    w' = add_callback (sid, p) w /\
    (r = Ok tt <-> exists code, cb_resp env (List.length (callbacks w)) = Some code /\ code < 400).
Proof.
  unfold _update_status, raise. destruct (String.eqb _ _).
  - split; [eexists; reflexivity|reflexivity].
  - destruct (cb_resp env _) as [code|] eqn:E.
    + destruct (Z.leb_spec 400 code); (split; [reflexivity|]); split.
      * discriminate.
      * intros (c & Hc & Hlt). injection Hc as <-. lia.
      * intros _. eauto.
      * reflexivity.
    + split; [reflexivity|]. split; [discriminate|]. intros (c & Hc & _). discriminate.
Qed.

(** [_safe_update_status] never raises, whatever the token and the answers
    of the control plane; it sends one callback when a token is configured
    and none otherwise, and leaves the containers and removal calls alone. *)
Theorem safe_update_status_never_raises (settings : Settings) (env : Env) (sid : Z)
  (p : Payload) (w : World) :
  let '(r, w') := _safe_update_status settings env sid p w in
  r = Ok tt /\ containers w' = containers w /\ removals w' = removals w /\
  callbacks w' = callbacks w ++
    (if String.eqb (WORKER_API_TOKEN settings) "" then [] else [(sid, p)]).
Proof. exact (safe_update_world settings env sid p w). Qed.

(** *** Cutover on its own *)

(** [_cleanup_old_container] never raises, for any current id and any
    engine behaviour; it does nothing at all when the current id is unset,
    0 (falsy in Python) or the new id, and otherwise makes one removal call
    for the old container's name. *)
Theorem cleanup_old_container_total (env : Env) (cur : option Z) (new : Z) (w : World) :
  fst (_cleanup_old_container env cur new w) = Ok tt /\
  ((cur = None \/ cur = Some 0 \/ cur = Some new) -> snd (_cleanup_old_container env cur new w) = w) /\
  (forall c, cur = Some c -> c <> 0 -> c <> new ->
     removals (snd (_cleanup_old_container env cur new w)) = removals w ++ [_build_container_name c]).
Proof.
  destruct (cleanup_world env cur new w) as [Hr Hw]. split; [exact Hr|]. split.
  - intros [->|[->| ->]]; unfold _cleanup_old_container; [reflexivity|reflexivity|].
    rewrite Z.eqb_refl, orb_true_r. reflexivity.
  - intros c -> H0 Hn. cbv beta iota zeta in Hw.
    apply Z.eqb_neq in H0. apply Z.eqb_neq in Hn. rewrite H0, Hn in Hw. cbn [orb] in Hw.
    apply Hw.
Qed.

Section MoreWorker.
Local Open Scope string_scope.

(** *** Container labels *)

Lemma string_app_cancel_l (p s t : string) : p ++ s = p ++ t -> s = t.
Proof. induction p as [|a p IH]; simpl; [auto|intros H; injection H; auto]. Qed.

Lemma string_length_app (s t : string) :
  String.length (s ++ t) = (String.length s + String.length t)%nat.
Proof. induction s; simpl; auto. Qed.

Lemma string_app_cancel_r (s1 s2 t : string) : s1 ++ t = s2 ++ t -> s1 = s2.
Proof.
  revert s2; induction s1 as [|a s1 IH]; intros [|b s2]; simpl; auto; intros H.
  - apply (f_equal String.length) in H. simpl in H. rewrite string_length_app in H. lia.
  - apply (f_equal String.length) in H. simpl in H. rewrite string_length_app in H. lia.
  - injection H as -> H. f_equal. auto.
Qed.

(** Two label keys differ: either they share their literal prefix and the
    router name and differ after it, or their literal prefixes differ. *)
Ltac key_neq :=
  let H := fresh in intros H;
  first [ apply string_app_cancel_l, string_app_cancel_l in H; discriminate H
        | cbn in H; discriminate H ].

(** [labels.get(key)] on the dict built by [_build_container_labels]. *)
Definition label_get (k : string) (labels : list (string * string)) : option string :=
  match find (fun kv => String.eqb (fst kv) k) labels with
  | Some kv => Some (snd kv)
  | None => None
  end.

(** The labels of a container are a dict in the list: no key is given
    twice, whatever the submission id and domain; the network label
    traefik.docker.network is present exactly when a non-empty network name
    is passed, with that name; the submission label carries str(id). *)
Theorem container_labels_form_a_dict (settings : Settings) (t : DeployTarget)
  (net : option string) :
  NoDup (map fst (_build_container_labels settings t net)) /\
  label_get "traefik.docker.network" (_build_container_labels settings t net) = truthy net /\
  label_get "com.ikuncode.project_submission_id" (_build_container_labels settings t net) =
    Some (py_str_int (t_submission_id t)).
Proof.
  split.
  - unfold _build_container_labels. cbv zeta.
    destruct (truthy net) as [n|]; cbn [map fst List.app];
      repeat constructor; cbn [In]; intros HH; repeat destruct HH as [HH|HH];
      try contradiction; revert HH; key_neq.
  - unfold label_get, _build_container_labels. cbv zeta.
    destruct (truthy net) as [n|]; simpl; auto.
Qed.

(** *** Status callback URL *)

Lemma rstrip_slash_snoc b : rstrip_slash (b ++ "/") = rstrip_slash b.
Proof. induction b as [|c b IH]; [reflexivity|]. simpl. rewrite IH. reflexivity. Qed.

(** Two submissions never share a status callback URL. *)
Theorem status_url_separates_submissions (base prefix : string) (a b : Z) (Hab : a <> b) :
  _build_status_url base prefix a <> _build_status_url base prefix b.
Proof.
  unfold _build_status_url. intros H.
  apply string_app_cancel_l, string_app_cancel_l, string_app_cancel_l, string_app_cancel_r in H.
  exact (Hab (py_str_int_inj a b H)).
Qed.

Lemma status_url_separates_submissions_witness :
  (3 <> 4)%Z /\
  _build_status_url "http://api:8000/" "/api/v1" 3 <> _build_status_url "http://api:8000/" "/api/v1" 4.
Proof.
  assert (H : (3 <> 4)%Z) by lia.
  split; [exact H|]. exact (status_url_separates_submissions _ _ _ _ H).
Defined.

(** A trailing slash on the configured base URL does not change the URL. *)
Theorem status_url_ignores_trailing_slash (base prefix : string) (sid : Z) :
  _build_status_url (base ++ "/") prefix sid = _build_status_url base prefix sid.
Proof. unfold _build_status_url. rewrite rstrip_slash_snoc. reflexivity. Qed.

(** *** Deploy network *)

Lemma resolve_world settings env w :
  snd (_resolve_deploy_network settings env w) = w \/
  exists m, snd (_resolve_deploy_network settings env w) = add_log m w.
Proof.
  unfold _resolve_deploy_network, bind, modify, ret.
  destruct (negb _); [destruct (existsb _ _); simpl; eauto|].
  destruct (hostname env) as [cid|]; [|auto]. destruct (String.eqb cid ""); [auto|].
  destruct (self_networks env cid) as [[|n ns]|]; auto.
Qed.


(** *** Container launch *)

Lemma rie_world env n w :
  let w' := snd (_remove_container_if_exists env n w) in
  callbacks w' = callbacks w /\ runs w' = runs w /\ removals w' = removals w /\
  (containers w' = containers w \/ containers w' = remove_first n (containers w)).
Proof.
  unfold _remove_container_if_exists, containers_get, container_remove_force,
    bind, try_except, ret, raise, modify.
  destruct (find _ _) as [c|] eqn:E; simpl; [|auto].
  apply find_some in E as [_ E]; apply String.eqb_eq in E. rewrite E.
  destruct (remove_ok env n); simpl; auto.
Qed.

(** A launch that returns normally returns project-<id>, has made exactly
    one [containers.run] call, for that name, and no status callback or
    removal call; the engine then holds a container of that name, with the
    target's image, attached to the resolved (non-empty) network, labelled
    by [_build_container_labels] for that network, and with PORT set to
    the configured port. *)
Theorem start_container_launches (settings : Settings) (env : Env) (t : DeployTarget)
  (w : World) (n : string) (w' : World)
  (H : _start_container settings env t w = (Ok n, w')) :
  n = _build_container_name (t_submission_id t) /\
  runs w' = (runs w ++ [n])%list /\ callbacks w' = callbacks w /\ removals w' = removals w /\
  exists c, In c (containers w') /\ c_name c = n /\ c_image c = t_image_ref t /\
    fst (_resolve_deploy_network settings env w) = Ok (Some (c_network c)) /\
    c_network c <> "" /\
    c_labels c = _build_container_labels settings t (Some (c_network c)) /\
    c_env_port c = py_str_int (WORKER_PROJECT_PORT settings).
Proof.
  unfold _start_container in H.
  apply bind_ok in H as ([] & w1 & H1 & H).
  unfold _docker_client, ret, raise in H1. destruct (engine_up env); [|discriminate].
  injection H1 as <-.
  apply bind_ok in H as (net & w2 & H2 & H).
  destruct (truthy net) as [nn|] eqn:Ht; [|discriminate].
  apply bind_ok in H as ([] & w3 & H3 & H).
  apply bind_ok in H as ([] & w4 & H4 & H).
  injection H as <- <-.
  assert (Hnet : net = Some nn /\ nn <> "").
  { destruct net as [s|]; simpl in Ht; [|discriminate].
    destruct (String.eqb s "") eqn:Es; [discriminate|]. injection Ht as <-.
    split; [reflexivity|]. now apply String.eqb_neq. }
  destruct Hnet as [-> Hnn].
  assert (Hw2 : runs w2 = runs w /\ callbacks w2 = callbacks w /\ removals w2 = removals w).
  { destruct (resolve_world settings env w) as [E|[m E]]; rewrite H2 in E; simpl in E;
      subst w2; auto. }
  pose proof (rie_world env (_build_container_name (t_submission_id t)) w2) as Hw3.
  rewrite H3 in Hw3. simpl in Hw3. destruct Hw3 as (Hb3 & Hr3 & Hm3 & _).
  unfold containers_run in H4. destruct (existsb _ _); [discriminate|].
  destruct (run_outcome env (t_image_ref t)); try discriminate.
  injection H4 as <-. simpl. destruct Hw2 as (Hr2 & Hb2 & Hm2).
  split; [reflexivity|]. split; [congruence|]. split; [congruence|]. split; [congruence|].
  eexists. split; [apply in_or_app; right; left; reflexivity|].
  simpl. repeat split; auto. rewrite H2. reflexivity.
Qed.

Lemma start_container_launches_witness :
  fst (_start_container sample_settings sample_env sample_target sample_world) = Ok "project-5" /\
  let w' := snd (_start_container sample_settings sample_env sample_target sample_world) in
  "project-5" = _build_container_name (t_submission_id sample_target) /\
  runs w' = (runs sample_world ++ ["project-5"])%list /\ callbacks w' = callbacks sample_world /\
  removals w' = removals sample_world /\
  exists c, In c (containers w') /\ c_name c = "project-5" /\
    c_image c = t_image_ref sample_target /\
    fst (_resolve_deploy_network sample_settings sample_env sample_world) = Ok (Some (c_network c)) /\
    c_network c <> "" /\
    c_labels c = _build_container_labels sample_settings sample_target (Some (c_network c)) /\
    c_env_port c = py_str_int (WORKER_PROJECT_PORT sample_settings).
Proof.
  assert (E : _start_container sample_settings sample_env sample_target sample_world =
              (Ok "project-5",
               snd (_start_container sample_settings sample_env sample_target sample_world)))
    by (vm_compute; reflexivity).
  split; [rewrite E; reflexivity|].
  exact (start_container_launches _ _ _ _ _ _ E).
Defined.

(** When no network can be resolved, the launch raises RuntimeError before
    touching the engine: no container removed or created, no run call. *)
Theorem start_container_needs_network (settings : Settings) (env : Env) (t : DeployTarget)
  (w : World) (Hup : engine_up env = true)
  (Hnone : fst (_resolve_deploy_network settings env w) = Ok None) :
  exists m, fst (_start_container settings env t w) = Raise (RuntimeError m) /\
  let w' := snd (_start_container settings env t w) in
  containers w' = containers w /\ runs w' = runs w /\ removals w' = removals w /\
  callbacks w' = callbacks w.
Proof.
  destruct (_start_container settings env t w) as [r w'] eqn:E. cbv zeta. cbn [fst snd].
  pose proof (resolve_world settings env w) as Hw.
  unfold _start_container, bind at 1, _docker_client in E. rewrite Hup in E.
  unfold ret at 1, bind at 1 in E.
  destruct (_resolve_deploy_network settings env w) as [r0 w2]. simpl in Hnone, Hw. subst r0.
  simpl in E. injection E as <- <-. eexists. split; [reflexivity|].
  destruct Hw as [-> | [m ->]]; repeat split.
Qed.

(** No network configured and no HOSTNAME to detect one from. *)
Lemma start_container_needs_network_witness :
  engine_up sample_env = true /\
  fst (_resolve_deploy_network (mkSettings "worker-token" "" 8080 true 3 "/health")
         sample_env sample_world) = Ok None /\
  exists m, fst (_start_container (mkSettings "worker-token" "" 8080 true 3 "/health")
                   sample_env sample_target sample_world) = Raise (RuntimeError m) /\
  let w' := snd (_start_container (mkSettings "worker-token" "" 8080 true 3 "/health")
                   sample_env sample_target sample_world) in
  containers w' = containers sample_world /\ runs w' = runs sample_world /\
  removals w' = removals sample_world /\ callbacks w' = callbacks sample_world.
Proof.
  assert (H1 : engine_up sample_env = true) by reflexivity.
  assert (H2 : fst (_resolve_deploy_network (mkSettings "worker-token" "" 8080 true 3 "/health")
                      sample_env sample_world) = Ok None) by reflexivity.
  split; [exact H1|]. split; [exact H2|].
  exact (start_container_needs_network _ _ _ _ H1 H2).
Defined.

(** When a container of the target's name exists and the engine refuses
    to remove it, the launch raises the engine's error and makes no run
    call: it never starts a second container beside it. *)
Theorem start_container_stops_on_stuck_name (settings : Settings) (env : Env)
  (t : DeployTarget) (w : World) (nn : string)
  (Hup : engine_up env = true)
  (Hnet : fst (_resolve_deploy_network settings env w) = Ok (Some nn)) (Hnn : nn <> "")
  (Hin : In (_build_container_name (t_submission_id t)) (names w))
  (Hko : remove_ok env (_build_container_name (t_submission_id t)) = false) :
  exists m, fst (_start_container settings env t w) = Raise (DockerError m) /\
  let w' := snd (_start_container settings env t w) in
  containers w' = containers w /\ runs w' = runs w.
Proof.
  destruct (_start_container settings env t w) as [r w'] eqn:E. cbv zeta. cbn [fst snd].
  pose proof (resolve_world settings env w) as Hw.
  unfold _start_container, bind at 1, _docker_client in E. rewrite Hup in E.
  unfold ret at 1, bind at 1 in E.
  destruct (_resolve_deploy_network settings env w) as [r0 w2]. simpl in Hnet, Hw. subst r0.
  cbn [truthy] in E. apply String.eqb_neq in Hnn. rewrite Hnn in E.
  assert (Hc2 : containers w2 = containers w /\ runs w2 = runs w)
    by (destruct Hw as [-> | [m ->]]; split; reflexivity).
  clear Hw. destruct Hc2 as [Hc2 Hr2].
  set (name := _build_container_name (t_submission_id t)) in *.
  unfold bind at 1, _remove_container_if_exists, containers_get, bind, try_except, ret in E.
  destruct (find (fun c => String.eqb (c_name c) name) (containers w2)) as [c|] eqn:Ef.
  - apply find_some in Ef as [_ Ef]; apply String.eqb_eq in Ef.
    unfold container_remove_force in E. rewrite Ef, Hko in E. unfold raise in E. simpl in E.
    injection E as <- <-. eexists. split; [reflexivity|]. auto.
  - exfalso. unfold names in Hin. rewrite <- Hc2 in Hin.
    apply in_map_iff in Hin as (c & Hc & Hin). apply (find_none _ _ Ef) in Hin.
    simpl in Hin. rewrite Hc, String.eqb_refl in Hin. discriminate.
Qed.

(** project-5 is live and the engine refuses every removal. *)
Definition stuck_env : Env :=
  mkEnv (db sample_env) true ["ikun-net"] None (fun _ => None) (fun _ => true)
    (fun _ => RunStarts) (fun _ => false) (fun _ => Some 200) (fun _ => Some 200).

Lemma start_container_stops_on_stuck_name_witness :
  exists m, fst (_start_container sample_settings stuck_env sample_target redeploy_world)
              = Raise (DockerError m) /\
  let w' := snd (_start_container sample_settings stuck_env sample_target redeploy_world) in
  containers w' = containers redeploy_world /\ runs w' = runs redeploy_world.
Proof.
  apply (start_container_stops_on_stuck_name sample_settings stuck_env sample_target
           redeploy_world "ikun-net").
  - reflexivity.
  - reflexivity.
  - discriminate.
  - simpl. left. reflexivity.
  - reflexivity.
Defined.

(** *** Health gate *)

(** With health checks enabled and a retry count of zero or less, the
    check answers false without any request ([range] is empty), so no
    deploy ever reaches the ONLINE report. *)
Theorem nonpositive_retry_fails_every_deploy (settings : Settings) (env : Env)
  (Hen : WORKER_HEALTHCHECK_ENABLED settings = true)
  (Hre : (WORKER_HEALTHCHECK_RETRY settings <= 0)%Z) :
  (forall n w, _health_check settings env n w = (Ok false, w)) /\
  (forall sid n t w, fst (deploy_until_online settings env sid n t w) <> Ok tt).
Proof.
  assert (Hh : forall n w, _health_check settings env n w = (Ok false, w)).
  { intros n w. unfold _health_check. rewrite Hen. simpl.
    replace (Z.to_nat (WORKER_HEALTHCHECK_RETRY settings)) with O by lia. reflexivity. }
  split; [exact Hh|]. intros sid n t w Hok.
  destruct (deploy_until_online settings env sid n t w) as [r w'] eqn:E. simpl in Hok. subst r.
  unfold deploy_until_online in E.
  apply bind_ok in E as ([] & w1 & _ & E).
  apply bind_ok in E as ([] & w2 & _ & E).
  apply bind_ok in E as ([] & w3 & _ & E).
  apply bind_ok in E as (s & w4 & _ & E).
  apply bind_ok in E as ([] & w5 & _ & E).
  apply bind_ok in E as (ok & w6 & H6 & E).
  rewrite Hh in H6. injection H6 as <- <-.
  apply bind_ok in E as (u & w7 & H7 & _). discriminate.
Qed.

Lemma nonpositive_retry_fails_every_deploy_witness :
  WORKER_HEALTHCHECK_ENABLED (mkSettings "worker-token" "ikun-net" 8080 true 0 "/health") = true /\
  (WORKER_HEALTHCHECK_RETRY (mkSettings "worker-token" "ikun-net" 8080 true 0 "/health") <= 0)%Z /\
  (forall n w, _health_check (mkSettings "worker-token" "ikun-net" 8080 true 0 "/health")
                 sample_env n w = (Ok false, w)) /\
  (forall sid n t w, fst (deploy_until_online (mkSettings "worker-token" "ikun-net" 8080 true 0 "/health")
                            sample_env sid n t w) <> Ok tt).
Proof.
  assert (H1 : WORKER_HEALTHCHECK_ENABLED
                 (mkSettings "worker-token" "ikun-net" 8080 true 0 "/health") = true)
    by reflexivity.
  assert (H2 : (WORKER_HEALTHCHECK_RETRY
                  (mkSettings "worker-token" "ikun-net" 8080 true 0 "/health") <= 0)%Z)
    by (simpl; lia).
  split; [exact H1|]. split; [exact H2|].
  exact (nonpositive_retry_fails_every_deploy _ sample_env H1 H2).
Defined.

(** *** Removal *)

(** [_remove_container n] records its call and never touches another
    name: it creates no container, removes none of another name, and makes
    no status callback, run call or health request. *)
Theorem remove_container_touches_only_its_name (env : Env) (n : string) (w : World) :
  let w' := snd (_remove_container env n w) in
  removals w' = (removals w ++ [n])%list /\ callbacks w' = callbacks w /\ runs w' = runs w /\
  gets w' = gets w /\
  (forall c, In c (containers w') -> In c (containers w)) /\
  (forall c, c_name c <> n -> In c (containers w) -> In c (containers w')).
Proof.
  cbv zeta. destruct (_remove_container env n w) as [r w'] eqn:E. simpl.
  apply remove_container_world in E as [-> | ->]; simpl; repeat split; auto.
  - intros c Hc. eapply remove_first_in; exact Hc.
  - intros c Hn Hc. apply remove_first_keeps; assumption.
Qed.

(** *** Deploy jobs and the loop *)

Lemma process_raise settings env dom sid w e w' :
  _process_submission settings env dom sid w = (Raise e, w') ->
  (exists m, e = RuntimeError m) /\ w' = w /\
  (db env sid = None \/ exists row, db env sid = Some row /\ truthy (row_image_ref row) = None).
Proof.
  unfold _process_submission, _load_deploy_target, bind at 1, raise, ret.
  destruct (db env sid) as [row|] eqn:Hdb.
  - destruct (truthy (row_image_ref row)) as [img|] eqn:Hi.
    + unfold try_except.
      match goal with |- context [deploy_steps settings env sid ?n ?t w] =>
        destruct (deploy_steps settings env sid n t w) as [[[]|e1] w1] end;
        [discriminate|].
      unfold any_exception.
      match goal with |- deploy_failed settings env sid ?n ?e1 ?w1 = _ -> _ =>
        pose proof (failed_world settings env sid n e1 w1) as Hf;
        destruct (deploy_failed settings env sid n e1 w1) as [r2 w2] end.
      destruct Hf as [-> _]. discriminate.
    + intros [= <- <-]. split; [eauto|]. split; [reflexivity|]. right; eauto.
  - intros [= <- <-]. split; [eauto|]. split; [reflexivity|]. left; reflexivity.
Qed.



Lemma parse_raise raw e :
  _parse_queue_item raw = Raise e -> exists m, e = OverflowError m.
Proof.
  unfold _parse_queue_item. destruct raw as [raw|]; [|discriminate].
  destruct (py_strip raw) as [|c r]; [discriminate|].
  destruct (py_int_of_text (c :: r)); [discriminate|].
  destruct (json_loads (c :: r)) as [[| | | | | |kvs]|]; try discriminate.
  destruct (py_int_json _) as [n|e'] eqn:E.
  - destruct (_ || _); discriminate.
  - destruct (is_TypeError_or_ValueError e') eqn:Ht; [discriminate|].
    intros [= <-]. exact (py_int_json_raise _ _ E Ht).
Qed.

Lemma dispatch_raise settings env dom j w e w' :
  dispatch settings env dom j w = (Raise e, w') -> exists m, e = RuntimeError m.
Proof.
  unfold dispatch. destruct (txt_eq _ _).
  - intros H. exact (proj1 (process_raise _ _ _ _ _ _ _ H)).
  - destruct (txt_eq _ _); [|discriminate].
    destruct (stop_world env (submission_id j) w) as [m ->]. discriminate.
Qed.




(** A queue item that is no deploy job once decoded. *)
Definition no_deploy_item (item : option text) : bool :=
  match item with
  | Some raw =>
      match _parse_queue_item (Some raw) with
      | Ok (Some job) => negb (txt_eq (action job) (cps "deploy"))
      | _ => true
      end
  | None => true
  end.



End MoreWorker.

(** * The JSON form of a queue message *)

Lemma pos_uint_canonical p :
  Pos.to_uint p <> Decimal.Nil /\ forall u, Pos.to_uint p <> Decimal.D0 u.
Proof.
  split; [apply DecimalPos.Unsigned.to_uint_nonnil|]. intros u Hu.
  assert (Hn : Decimal.unorm (Pos.to_uint p) = Pos.to_uint p).
  { rewrite <- DecimalPos.Unsigned.to_of, DecimalPos.Unsigned.of_to. reflexivity. }
  unfold Decimal.unorm in Hn. destruct (Decimal.nzhead (Pos.to_uint p)) eqn:E;
    try (rewrite Hu in Hn; discriminate).
  - exact (DecimalPos.Unsigned.to_uint_nonzero p (eq_sym Hn)).
  - exact (DecimalFacts.nzhead_nonzero _ _ E).
Qed.

Lemma span_digits_uint u c r :
  is_digit c = false ->
  span_digits (cps (NilEmpty.string_of_uint u) ++ c :: r) = (cps (NilEmpty.string_of_uint u), c :: r).
Proof.
  intros Hc. induction u; cbn [NilEmpty.string_of_uint]; rewrite ?cps_cons;
    [simpl; rewrite Hc; reflexivity|..]; cbn -[cps]; rewrite IHu; reflexivity.
Qed.

Lemma span_digits_cons_uint c u d r :
  is_digit c = true -> is_digit d = false ->
  span_digits (c :: cps (NilEmpty.string_of_uint u) ++ d :: r) =
    (c :: cps (NilEmpty.string_of_uint u), d :: r).
Proof. intros Hc Hd. cbn [span_digits]. rewrite Hc, span_digits_uint by exact Hd. reflexivity. Qed.

Lemma digits_fold_uint u acc :
  fold_left (fun acc c => acc * 10 + (c - 48)) (cps (NilEmpty.string_of_uint u)) acc = uval u acc.
Proof.
  revert acc; induction u; intros acc; [reflexivity|..]; cbn [NilEmpty.string_of_uint];
    rewrite cps_cons; cbn -[cps]; rewrite IHu; f_equal; lia.
Qed.

Lemma scan_value_digit f c r :
  is_digit c = true -> scan_value (S f) (c :: r) = scan_number (c :: r).
Proof.
  unfold is_digit. intros H. apply andb_true_iff in H as [H1 H2].
  apply Z.leb_le in H1. apply Z.leb_le in H2.
  assert (c = 48 \/ c = 49 \/ c = 50 \/ c = 51 \/ c = 52 \/ c = 53 \/ c = 54 \/ c = 55 \/
          c = 56 \/ c = 57) by lia.
  repeat match goal with H : _ \/ _ |- _ => destruct H as [->|H] end; subst; reflexivity.
Qed.

Lemma scan_value_neg_digit f c r :
  is_digit c = true -> scan_value (S f) (45 :: c :: r) = scan_number (45 :: c :: r).
Proof.
  unfold is_digit. intros H. apply andb_true_iff in H as [H1 H2].
  apply Z.leb_le in H1. apply Z.leb_le in H2.
  assert (c = 48 \/ c = 49 \/ c = 50 \/ c = 51 \/ c = 52 \/ c = 53 \/ c = 54 \/ c = 55 \/
          c = 56 \/ c = 57) by lia.
  repeat match goal with H : _ \/ _ |- _ => destruct H as [->|H] end; subst; reflexivity.
Qed.

Lemma scan_number_uint (neg : bool) u r :
  u <> Decimal.Nil -> (forall v, u <> Decimal.D0 v) ->
  scan_number ((if neg then [45] else []) ++ cps (NilEmpty.string_of_uint u) ++ 125 :: r) =
  Some (JInt (if neg then - uval u 0 else uval u 0), 125 :: r).
Proof.
  intros Hn H0. unfold digits_val.
  destruct u; [congruence|exfalso; eapply H0; reflexivity|..];
    cbn [NilEmpty.string_of_uint]; rewrite cps_cons;
    match goal with |- context [Z.of_nat (nat_of_ascii ?a)] =>
      let v := eval vm_compute in (Z.of_nat (nat_of_ascii a)) in
      change (Z.of_nat (nat_of_ascii a)) with v end;
    destruct neg; cbn -[cps span_digits]; rewrite span_digits_cons_uint by reflexivity;
    cbn -[cps]; rewrite digits_fold_uint; reflexivity.
Qed.

Lemma uint_head u :
  u <> Decimal.Nil ->
  exists c rest, cps (NilEmpty.string_of_uint u) = c :: rest /\ is_digit c = true.
Proof.
  intros Hu. destruct (cps (NilEmpty.string_of_uint u)) as [|c rest] eqn:E.
  - destruct u; [congruence|..]; discriminate.
  - exists c, rest. split; [reflexivity|]. apply (uint_digits_nonspace u). rewrite E. left; reflexivity.
Qed.

Lemma scan_value_int f n r :
  scan_value (S f) (cps (py_str_int n) ++ 125 :: r) = Some (JInt n, 125 :: r).
Proof.
  destruct n as [|p|p]; [reflexivity| |].
  all: destruct (pos_uint_canonical p) as [Hnil H0].
  all: assert (Hv : uval (Pos.to_uint p) 0 = Z.pos p)
         by (rewrite <- z_of_uint_uval; exact (DecimalZ.of_to (Z.pos p))).
  all: destruct (uint_head _ Hnil) as (c & rest & Hc & Hd).
  all: unfold py_str_int; simpl Z.to_int; unfold NilEmpty.string_of_int.
  - rewrite Hc. cbn [List.app]. rewrite scan_value_digit by exact Hd.
    rewrite app_comm_cons, <- Hc.
    change (cps (NilEmpty.string_of_uint (Pos.to_uint p)) ++ 125 :: r) with
      ((if false then [45] else []) ++ cps (NilEmpty.string_of_uint (Pos.to_uint p)) ++ 125 :: r).
    rewrite scan_number_uint by assumption. rewrite Hv. reflexivity.
  - rewrite cps_cons. change (Z.of_nat (nat_of_ascii "-")) with 45.
    rewrite Hc. cbn [List.app]. rewrite scan_value_neg_digit by exact Hd.
    rewrite app_comm_cons, <- Hc.
    change (45 :: cps (NilEmpty.string_of_uint (Pos.to_uint p)) ++ 125 :: r) with
      ((if true then [45] else []) ++ cps (NilEmpty.string_of_uint (Pos.to_uint p)) ++ 125 :: r).
    rewrite scan_number_uint by assumption. rewrite Hv. reflexivity.
Qed.

Lemma scan_string_char c r :
  c <> 34 -> c <> 92 -> scan_string (c :: r) = if c <? 32 then None else cons_fst c (scan_string r).
Proof.
  intros H1 H2. destruct c as [|p|p]; [reflexivity| |reflexivity].
  repeat (destruct p as [p|p|]; try reflexivity); lia.
Qed.

Lemma scan_string_plain s r :
  Forall (fun c => 32 <= c /\ c <> 34 /\ c <> 92) s -> scan_string (s ++ 34 :: r) = Some (s, r).
Proof.
  induction 1 as [|c s (H1 & H2 & H3) _ IH]; [reflexivity|].
  cbn [List.app]. rewrite scan_string_char by assumption.
  replace (c <? 32) with false by (symmetry; apply Z.ltb_ge; lia).
  rewrite IH. reflexivity.
Qed.

Lemma py_strip_braces m : py_strip (123 :: m ++ [125]) = 123 :: m ++ [125].
Proof.
  unfold py_strip. rewrite lstrip_keep by reflexivity.
  replace (rev (123 :: m ++ [125])) with (125 :: rev m ++ [123])
    by (simpl; rewrite rev_app_distr; reflexivity).
  rewrite lstrip_keep by reflexivity. simpl. rewrite rev_app_distr, rev_involutive. reflexivity.
Qed.

Lemma json_ws_space c : is_json_ws c = true -> py_isspace c = true.
Proof.
  unfold is_json_ws, py_isspace. intros H.
  repeat (apply orb_true_iff in H as [H|H]); apply Z.eqb_eq in H; subst; reflexivity.
Qed.

Lemma skip_ws_str_int n r : skip_ws (cps (py_str_int n) ++ r) = cps (py_str_int n) ++ r.
Proof.
  destruct (str_int_chars n) as [Hne Hf].
  destruct (cps (py_str_int n)) as [|c rest]; [congruence|].
  inversion Hf as [|? ? Hc _]; subst. cbn [List.app skip_ws].
  destruct (is_json_ws c) eqn:E; [|reflexivity].
  apply json_ws_space in E. congruence.
Qed.

Lemma skip_ws_keep c t : is_json_ws c = false -> skip_ws (c :: t) = c :: t.
Proof. intros H. simpl. rewrite H. reflexivity. Qed.

Lemma skip_ws_drop c t : is_json_ws c = true -> skip_ws (c :: t) = skip_ws t.
Proof. intros H. simpl. rewrite H. reflexivity. Qed.

Lemma scan_value_obj f t t' :
  skip_ws t = 34 :: t' -> scan_value (S f) (123 :: t) = scan_members f (34 :: t') [].
Proof. intros H. cbn [scan_value]. rewrite H. reflexivity. Qed.

Lemma scan_value_str f t s r :
  scan_string t = Some (s, r) -> scan_value (S f) (34 :: t) = Some (JStr s, r).
Proof. intros H. cbn [scan_value]. rewrite H. reflexivity. Qed.

Lemma scan_members_last f t k r1 r2 v r3 r4 acc :
  scan_string t = Some (k, r1) -> skip_ws r1 = 58 :: r2 -> scan_value f (skip_ws r2) = Some (v, r3) ->
  skip_ws r3 = 125 :: r4 -> scan_members (S f) (34 :: t) acc = Some (JObj (rev ((k, v) :: acc)), r4).
Proof. intros H1 H2 H3 H4. cbn [scan_members]. rewrite H1, H2, H3, H4. reflexivity. Qed.

Lemma scan_members_next f t k r1 r2 v r3 r4 t5 acc :
  scan_string t = Some (k, r1) -> skip_ws r1 = 58 :: r2 -> scan_value f (skip_ws r2) = Some (v, r3) ->
  skip_ws r3 = 44 :: r4 -> skip_ws r4 = 34 :: t5 ->
  scan_members (S f) (34 :: t) acc = scan_members f (34 :: t5) ((k, v) :: acc).
Proof. intros H1 H2 H3 H4 H5. cbn [scan_members]. rewrite H1, H2, H3, H4, H5. reflexivity. Qed.

Lemma json_obj_two a N n :
  Forall (fun c => 32 <= c /\ c <> 34 /\ c <> 92) a ->
  (forall f r, scan_value (S f) (N ++ 125 :: r) = Some (JInt n, 125 :: r)) ->
  (forall r, skip_ws (N ++ r) = N ++ r) ->
  json_loads (123 :: 34 :: cps "action" ++ 34 :: 58 :: 32 :: 34 :: a ++ 34 :: 44 :: 32 :: 34 ::
              cps "submission_id" ++ 34 :: 58 :: 32 :: N ++ [125]) =
  Some (JObj [(cps "action", JStr a); (cps "submission_id", JInt n)]).
Proof.
  intros Ha Hsv Hws.
  assert (Hk : forall k r, Forall (fun c => 32 <= c /\ c <> 34 /\ c <> 92) k ->
                 scan_string (k ++ 34 :: r) = Some (k, r)) by (intros; apply scan_string_plain; auto).
  assert (Hk1 : Forall (fun c => 32 <= c /\ c <> 34 /\ c <> 92) (cps "action"))
    by (repeat constructor; discriminate).
  assert (Hk2 : Forall (fun c => 32 <= c /\ c <> 34 /\ c <> 92) (cps "submission_id"))
    by (repeat constructor; discriminate).
  unfold json_loads. rewrite skip_ws_keep by reflexivity.
  match goal with |- match scan_value (S ?L) _ with _ => _ end = _ =>
    assert (Hf : exists g, L = S (S (S g))) by (eexists; simpl; reflexivity);
    destruct Hf as [g ->] end.
  rewrite (scan_value_obj _ _ _ (skip_ws_keep 34 _ eq_refl)).
  erewrite scan_members_next.
  2: { apply Hk. exact Hk1. }
  2: { rewrite skip_ws_keep by reflexivity. reflexivity. }
  2: { rewrite skip_ws_drop by reflexivity. rewrite skip_ws_keep by reflexivity.
       apply scan_value_str. apply Hk. exact Ha. }
  2: { rewrite skip_ws_keep by reflexivity. reflexivity. }
  2: { rewrite skip_ws_drop by reflexivity. rewrite skip_ws_keep by reflexivity. reflexivity. }
  erewrite scan_members_last.
  2: { apply Hk. exact Hk2. }
  2: { rewrite skip_ws_keep by reflexivity. reflexivity. }
  2: { rewrite skip_ws_drop by reflexivity. rewrite Hws. apply Hsv. }
  2: { rewrite skip_ws_keep by reflexivity. reflexivity. }
  reflexivity.
Qed.

Lemma txt_eq_refl t : txt_eq t t = true.
Proof. unfold txt_eq. destruct (list_eq_dec Z.eq_dec t t); congruence. Qed.


